(** * Automated Candidate Interview Agent: turn arbitration and its glue

    A shallow embedding of the Python sources [app.py] and
    [custom_agents.py]:

    - [custom_speaker_selection], the speaker-selection function handed to
      the group chat (the "turn arbiter");
    - [GeminiWrapper.generate_content] and
      [GeminiAssistantAgent.generate_reply], the two calls into the hosted
      text-generation service, with their [try]/[except] blocks;
    - [GeminiAssistantAgent.__init__] and its credential check;
    - the "Start Interview" handler of [main] with its input validation.

    Conventions.  A Python [str] is modelled by the [string] of its UTF-8
    bytes.  Lengths and blanks are those of its characters, read back from
    the bytes ([codepoints]); the case operations ([lower], [capitalize])
    act on ASCII letters, which is all the code compares against.  A
    Python [dict] with string keys is a [gmap string string].  A computation that
    may raise is a value of [result]; [print] calls, which only write to
    the console, are left out. *)

From Stdlib Require Import String Ascii List Bool Arith NArith QArith Lia.
From stdpp Require Import base option gmap strings list.

Import ListNotations.
Local Open Scope string_scope.
Local Open Scope nat_scope.

(** ** Python string operations (ASCII) *)

Module PyStr.

Definition is_upper (c : ascii) : bool :=
  let n := nat_of_ascii c in (65 <=? n) && (n <=? 90).

Definition is_lower (c : ascii) : bool :=
  let n := nat_of_ascii c in (97 <=? n) && (n <=? 122).

Definition lower_char (c : ascii) : ascii :=
  if is_upper c then ascii_of_nat (nat_of_ascii c + 32) else c.

Definition upper_char (c : ascii) : ascii :=
  if is_lower c then ascii_of_nat (nat_of_ascii c - 32) else c.

(** [s.lower()] *)
Fixpoint lower (s : string) : string :=
  match s with
  | EmptyString => EmptyString
  | String c s' => String (lower_char c) (lower s')
  end.

(** [s.capitalize()]: first character upper-cased, the rest lower-cased. *)
Definition capitalize (s : string) : string :=
  match s with
  | EmptyString => EmptyString
  | String c s' => String (upper_char c) (lower s')
  end.

(** [s.startswith(p)] *)
Fixpoint startswith (p s : string) : bool :=
  match p, s with
  | EmptyString, _ => true
  | String _ _, EmptyString => false
  | String a p', String b s' => Ascii.eqb a b && startswith p' s'
  end.

(** [sub in s] *)
Fixpoint str_in (sub s : string) : bool :=
  startswith sub s ||
  match s with
  | EmptyString => false
  | String _ s' => str_in sub s'
  end.

(** The six payload bits of a continuation byte. *)
Definition continuation (b : ascii) : N := (N_of_ascii b mod 64)%N.

(** The characters (code points) of the [str] whose UTF-8 encoding is [s].
    A byte sequence that is cut short, which no [str] encodes to, is read
    byte by byte. *)
Fixpoint codepoints (s : string) : list N :=
  match s with
  | EmptyString => []
  | String b0 s1 =>
      let n0 := N_of_ascii b0 in
      if (n0 <? 192)%N then n0 :: codepoints s1
      else if (n0 <? 224)%N then
        match s1 with
        | String b1 s2 =>
            ((n0 - 192) * 64 + continuation b1)%N :: codepoints s2
        | EmptyString => [n0]
        end
      else if (n0 <? 240)%N then
        match s1 with
        | String b1 (String b2 s3) =>
            (((n0 - 224) * 64 + continuation b1) * 64 + continuation b2)%N
            :: codepoints s3
        | _ => n0 :: codepoints s1
        end
      else
        match s1 with
        | String b1 (String b2 (String b3 s4)) =>
            ((((n0 - 240) * 64 + continuation b1) * 64 + continuation b2) * 64
             + continuation b3)%N
            :: codepoints s4
        | _ => n0 :: codepoints s1
        end
  end.


(** [c.isspace()]: the characters [str.strip()] removes.  Tab to carriage
    return, the separators 28 to 31, the blank, U+0085, U+00A0, U+1680,
    U+2000 to U+200A, U+2028, U+2029, U+202F, U+205F and U+3000. *)
Definition isspace (c : N) : bool :=
  ((9 <=? c) && (c <=? 13) || (28 <=? c) && (c <=? 32)
   || (c =? 133) || (c =? 160) || (c =? 5760)
   || (8192 <=? c) && (c <=? 8202)
   || (c =? 8232) || (c =? 8233) || (c =? 8239) || (c =? 8287)
   || (c =? 12288))%N.

Fixpoint lstrip_chars (l : list N) : list N :=
  match l with
  | [] => []
  | c :: l' => if isspace c then lstrip_chars l' else l
  end.

Definition strip_chars (l : list N) : list N :=
  rev (lstrip_chars (rev (lstrip_chars l))).

(** [s.strip()], as the list of its characters. *)
Definition strip (s : string) : list N := strip_chars (codepoints s).

(** Truth value of [s.strip()]. *)
Definition truthy_chars (l : list N) : bool :=
  match l with [] => false | _ => true end.

(** [repr(s)] for a [str]: apostrophes around the text, or double quotes
    when the text holds an apostrophe and no double quote; the quote in use
    and the backslash are escaped, tab, line feed and carriage return are
    written [\t], [\n], [\r], and the other control characters as [\x]
    and two hexadecimal digits.  Characters beyond ASCII are taken to be
    printable and stay as they are. *)
Definition apostrophe : ascii := ascii_of_nat 39.
Definition double_quote : ascii := ascii_of_nat 34.
Definition backslash : ascii := ascii_of_nat 92.

Fixpoint has_char (c : ascii) (s : string) : bool :=
  match s with
  | EmptyString => false
  | String d s' => Ascii.eqb c d || has_char c s'
  end.

Definition hex_digit (n : nat) : ascii :=
  if n <? 10 then ascii_of_nat (48 + n) else ascii_of_nat (87 + n).

Definition repr_char (quote c : ascii) : string :=
  let n := nat_of_ascii c in
  if Ascii.eqb c quote || Ascii.eqb c backslash then
    String backslash (String c EmptyString)
  else if n =? 9 then String backslash "t"
  else if n =? 10 then String backslash "n"
  else if n =? 13 then String backslash "r"
  else if (n <? 32) || (n =? 127) then
    String backslash
      (String "x" (String (hex_digit (n / 16))
                     (String (hex_digit (n mod 16)) EmptyString)))
  else String c EmptyString.

Fixpoint repr_body (quote : ascii) (s : string) : string :=
  match s with
  | EmptyString => EmptyString
  | String c s' => repr_char quote c ++ repr_body quote s'
  end.

Definition repr (s : string) : string :=
  let quote :=
    if has_char apostrophe s && negb (has_char double_quote s)
    then double_quote else apostrophe in
  String quote (repr_body quote s ++ String quote EmptyString).

(** Truth value of a string: [bool(s)]. *)
Definition truthy (s : string) : bool :=
  match s with EmptyString => false | _ => true end.

(** *** Matching that ignores letter case

    The comparison the specification speaks of: two characters agree
    when they are the same letter in either case. *)

Definition same_char_ignoring_case (a b : ascii) : bool :=
  Ascii.eqb (lower_char a) (lower_char b).

Fixpoint startswith_ignoring_case (p s : string) : bool :=
  match p, s with
  | EmptyString, _ => true
  | String _ _, EmptyString => false
  | String a p', String b s' =>
      same_char_ignoring_case a b && startswith_ignoring_case p' s'
  end.

Fixpoint occurs_ignoring_case (marker s : string) : bool :=
  startswith_ignoring_case marker s ||
  match s with
  | EmptyString => false
  | String _ s' => occurs_ignoring_case marker s'
  end.

End PyStr.

(** ** Exceptions and fallible computations *)

(** The exceptions the modelled code raises or catches.  [Exception cls msg]
    stands for any other instance of Python's [Exception], such as the
    failures of the generation service.  What derives from [BaseException]
    alone (a keyboard interrupt, an exit request) is not an error of the
    program and is outside the model. *)
Inductive exception : Type :=
| KeyError (key : string)
| ValueError (msg : string)
| Exception (cls msg : string).

(** [str(e)]: the message of the exception; for a [KeyError] it is the
    [repr] of the key. *)
Definition str (e : exception) : string :=
  match e with
  | KeyError key => PyStr.repr key
  | ValueError msg => msg
  | Exception _ msg => msg
  end.

Inductive result (A : Type) : Type :=
| Return (a : A)
| Raise (e : exception).
Arguments Return {A} a.
Arguments Raise {A} e.

Definition bind {A B : Type} (m : result A) (k : A -> result B) : result B :=
  match m with
  | Return a => k a
  | Raise e => Raise e
  end.

Notation "'let!' x ':=' m 'in' k" := (bind m (fun x => k))
  (at level 10, x name, m at level 100, k at level 200, only parsing).

(** [try: body  except Exception as e: handler(e)] *)
Definition try_except {A : Type} (body : result A)
    (handler : exception -> result A) : result A :=
  match body with
  | Return a => Return a
  | Raise e => handler e
  end.

Definition raises {A : Type} (m : result A) : Prop :=
  exists e, m = Raise e.

(** ** Messages and agents *)

(** A chat message is a Python dict; the code reads the keys ["content"]
    and ["role"]. *)
Abbreviation message := (gmap string string).

(** [d[key]] *)
Definition getitem (d : message) (key : string) : result string :=
  match d !! key with
  | Some v => Return v
  | None => Raise (KeyError key)
  end.

(** [d.get(key, default)] *)
Definition get (d : message) (key default : string) : string :=
  match d !! key with
  | Some v => v
  | None => default
  end.

(** The module-level agent objects of [app.py].  Python compares them by
    identity; [foreign_agent] stands for any other object passed as
    [last_speaker]. *)
Inductive agent : Type :=
| user_proxy_agent
| resume_analyzer_agent
| question_generator_agent
| interviewer_agent
| evaluator_agent
| foreign_agent (id : nat).

#[global] Instance agent_eq_dec : EqDecision agent.
Proof. solve_decision. Defined.

(** The five roles of the specification's data model and the agent object
    that plays each. *)
Inductive Role : Type :=
| Candidate | Analyzer | QuestionGenerator | Interviewer | Evaluator.

Definition agent_of (r : Role) : agent :=
  match r with
  | Candidate => user_proxy_agent
  | Analyzer => resume_analyzer_agent
  | QuestionGenerator => question_generator_agent
  | Interviewer => interviewer_agent
  | Evaluator => evaluator_agent
  end.

(** A turn of the transcript and its message dict.  As in the chat history
    kept by [main], the human side is stored with role ["user"] and the
    model side with role ["assistant"]. *)
Record Turn : Type := { role : Role; content : string }.

Definition role_label (r : Role) : string :=
  match r with
  | Candidate => "user"
  | _ => "assistant"
  end.

Definition message_of (t : Turn) : message :=
  {[ "role" := role_label (role t); "content" := content t ]}.

Definition messages_of (transcript : list Turn) : list message :=
  message_of <$> transcript.

(** [autogen.GroupChat] as far as [app.py] uses it. *)
Record GroupChat : Type := {
  agents : list agent;
  messages : list message;
  max_round : nat
}.

(** ** The turn arbiter: [custom_speaker_selection] *)

(** [last_speaker == a], with [None] for Python's [None]. *)
Definition speaker_is (last_speaker : option agent) (a : agent) : bool :=
  match last_speaker with
  | Some b => bool_decide (b = a)
  | None => false
  end.

Definition is_None (last_speaker : option agent) : bool :=
  match last_speaker with
  | None => true
  | Some _ => false
  end.

Definition custom_speaker_selection (last_speaker : option agent)
    (groupchat : GroupChat) : result (option agent) :=
  let messages := messages groupchat in
  let! last_message :=
    match last messages with
    | Some m => getitem m "content"
    | None => Return ""
    end in
  if is_None last_speaker || speaker_is last_speaker user_proxy_agent then
    if PyStr.str_in "resume" (PyStr.lower last_message)
       && PyStr.str_in "job description" (PyStr.lower last_message)
    then Return (Some resume_analyzer_agent)
    else if speaker_is last_speaker interviewer_agent then
      if PyStr.str_in "TERMINATE" last_message
      then Return (Some evaluator_agent)
      else Return (Some user_proxy_agent)
    else Return (Some interviewer_agent)
  else if speaker_is last_speaker resume_analyzer_agent then
    Return (Some question_generator_agent)
  else if speaker_is last_speaker question_generator_agent then
    Return (Some interviewer_agent)
  else if speaker_is last_speaker interviewer_agent then
    Return (Some user_proxy_agent)
  else if speaker_is last_speaker evaluator_agent then
    Return None
  else Return (Some user_proxy_agent).

(** The group chat of [app.py], created with an empty message list. *)
Definition group_chat : GroupChat :=
  {| agents := [user_proxy_agent; resume_analyzer_agent;
                question_generator_agent; interviewer_agent; evaluator_agent];
     messages := [];
     max_round := 50 |}.

(** The same group chat holding a transcript. *)
Definition chat_with (transcript : list Turn) : GroupChat :=
  {| agents := agents group_chat;
     messages := messages_of transcript;
     max_round := max_round group_chat |}.

(** ** The generation service *)

(** The [generation_config] dict both callers build. *)
Record GenerationConfig : Type := {
  temperature : Q;
  top_p : Q;
  top_k : N;
  max_output_tokens : N
}.

(** The hosted service, [google.generativeai]: building a model object,
    asking it for a response and reading the response's text can each
    raise. *)
Class GenAI : Type := {
  model_object : Type;
  response_object : Type;
  GenerativeModel : string -> GenerationConfig -> result model_object;
  model_generate_content : model_object -> string -> result response_object;
  response_text : response_object -> result string
}.

(** The body of the [try] block shared by [GeminiWrapper.generate_content]
    and [GeminiAssistantAgent.generate_reply]. *)
Definition call_service `{GenAI} (model_name : string) (temp : Q)
    (prompt : string) : result string :=
  let generation_config :=
    {| temperature := temp; top_p := 0.95; top_k := 0%N;
       max_output_tokens := 8192%N |} in
  let! model := GenerativeModel model_name generation_config in
  let! response := model_generate_content model prompt in
  response_text response.

(** *** [GeminiWrapper] *)

Record GeminiWrapper : Type := { api_key : string }.

Definition GeminiWrapper_init (api_key : string) : GeminiWrapper :=
  {| api_key := api_key |}.

Definition generate_content `{GenAI} (self : GeminiWrapper) (prompt : string)
    (model : string) (temp : Q) : result string :=
  try_except
    (call_service model temp prompt)
    (fun e => Return ("Error: " ++ str e)).

(** *** [GeminiAssistantAgent] *)

Record ConfigEntry : Type := {
  entry_model : string;
  entry_api_key : string;
  entry_api_type : string
}.

Record LlmConfig : Type := {
  config_list : list ConfigEntry;
  config_temperature : Q
}.

(** The attributes of an agent object; [agent_model] and
    [agent_temperature] are [self.model] and [self.temperature]. *)
Record GeminiAssistantAgent : Type := {
  name : string;
  system_message : string;
  llm_config : LlmConfig;
  agent_model : string;
  agent_temperature : Q
}.

Definition GOOGLE_API_KEY : string := "GOOGLE_API_KEY".
Definition placeholder_key : string := "YOUR_GEMINI_API_KEY_HERE".
Definition missing_key_message : string :=
  "GOOGLE_API_KEY not found or not set. Please check your .env file.".

(** Truth value of [os.environ.get(key)]: [None] and the empty string are
    false. *)
Definition truthy_opt (v : option string) : bool :=
  match v with
  | Some s => PyStr.truthy s
  | None => false
  end.

(** [GeminiAssistantAgent.__init__], reading the process environment
    [environ]. *)
Definition GeminiAssistantAgent_init (environ : gmap string string)
    (name system_message model : string) (temp : Q)
    : result GeminiAssistantAgent :=
  let valid_llm_config :=
    {| config_list :=
         [ {| entry_model := model;
              entry_api_key := get environ GOOGLE_API_KEY "dummy_key";
              entry_api_type := "openai" |} ];
       config_temperature := temp |} in
  let self :=
    {| name := name; system_message := system_message;
       llm_config := valid_llm_config;
       agent_model := model; agent_temperature := temp |} in
  let api_key := environ !! GOOGLE_API_KEY in
  if negb (truthy_opt api_key) || bool_decide (api_key = Some placeholder_key)
  then Raise (ValueError missing_key_message)
  else Return self.

Definition nl : string := String (ascii_of_nat 10) "".

(** The loop of [_format_messages_for_gemini]. *)
Fixpoint format_messages (formatted_prompt : string) (messages : list message)
    : result string :=
  match messages with
  | [] => Return formatted_prompt
  | message :: rest =>
      let role := get message "role" "user" in
      let! content := getitem message "content" in
      let label :=
        if String.eqb role "user" then "User"
        else if String.eqb role "assistant" then "Assistant"
        else PyStr.capitalize role in
      format_messages (formatted_prompt ++ label ++ ": " ++ content ++ nl ++ nl) rest
  end.

Definition _format_messages_for_gemini (self : GeminiAssistantAgent)
    (messages : list message) : result string :=
  let! formatted_prompt :=
    format_messages ("System: " ++ system_message self ++ nl ++ nl) messages in
  Return (formatted_prompt ++ "Assistant: ").

Definition generate_reply `{GenAI} (self : GeminiAssistantAgent)
    (messages : list message) : result string :=
  let! prompt := _format_messages_for_gemini self messages in
  try_except
    (call_service (agent_model self) (agent_temperature self) prompt)
    (fun e => Return ("Error: " ++ str e)).

(** ** The "Start Interview" handler of [main] *)

Record UploadedFile : Type := { size : N }.

(** The sidebar widgets as read in one run of the script. *)
Record Widgets : Type := {
  candidate_name : string;
  resume_file : option UploadedFile;
  job_description : string;
  voice_mode : bool;
  start_button : bool
}.

(** [st.session_state] *)
Record session_state : Type := {
  chat_history : list message;
  interview_started : bool
}.

(** What a run shows or asks of the user interface.  The pictograph that
    starts each displayed message is left out. *)
Inductive ui_event : Type :=
| st_error (text : string)
| st_warning (text : string)
| st_rerun.

Definition validate_candidate_name (candidate_name : string) : list string :=
  if negb (PyStr.truthy candidate_name)
     || negb (PyStr.truthy_chars (PyStr.strip candidate_name))
  then ["Candidate name is required"]
  else if length (PyStr.strip candidate_name) <? 2
  then ["Candidate name must be at least 2 characters long"]
  else [].

Definition validate_resume_file (resume_file : option UploadedFile) : list string :=
  match resume_file with
  | None => ["Resume file is required"]
  | Some f =>
      if (10 * 1024 * 1024 <? size f)%N
      then ["Resume file must be smaller than 10MB"]
      else []
  end.

Definition validate_job_description (job_description : string) : list string :=
  if negb (PyStr.truthy job_description)
     || negb (PyStr.truthy_chars (PyStr.strip job_description))
  then ["Job description is required"]
  else if length (PyStr.strip job_description) <? 50
  then ["Job description must be at least 50 characters long"]
  else [].

(** The list [validation_errors] after the three checks. *)
Definition validation_errors (w : Widgets) : list string :=
  (validate_candidate_name (candidate_name w)
   ++ validate_resume_file (resume_file w)
   ++ validate_job_description (job_description w))%list.

Definition chat_message (role content : string) : message :=
  {[ "role" := role; "content" := content ]}.

Definition append_message (m : message) (st : session_state) : session_state :=
  {| chat_history := (chat_history st ++ [m])%list;
     interview_started := interview_started st |}.

Definition set_started (b : bool) (st : session_state) : session_state :=
  {| chat_history := chat_history st; interview_started := b |}.

Definition analysis_prompt (resume_text job_description : string) : string :=
  "
                                You are an expert HR analyst. Analyze this resume against the job description:
                                
                                Resume: " ++ resume_text ++ "
                                
                                Job Description: " ++ job_description ++ "
                                
                                Provide a detailed analysis in JSON format with 'match' and 'gap' sections.
                                ".

Definition questions_prompt (analysis : string) : string :=
  "
                                Based on this analysis: " ++ analysis ++ "
                                
                                Generate 5 interview questions that would be good to ask this candidate.
                                Format as a numbered list.
                                ".

Definition mock_analysis : string :=
  "Resume Analysis: This is a mock analysis. In a real application, this would be generated by the Gemini API.".

Definition mock_questions : string :=
  "Interview Questions:" ++ nl ++ nl
  ++ "1. Tell me about your experience with Python." ++ nl
  ++ "2. How do you handle difficult team situations?" ++ nl
  ++ "3. What project are you most proud of and why?" ++ nl
  ++ "4. How do you stay updated with the latest technologies?" ++ nl
  ++ "5. Where do you see yourself in 5 years?".

(** The [try] block that follows a successful validation; it returns the
    session state it leaves behind together with its outcome. *)
Definition run_analysis `{GenAI} (gemini_wrapper : option GeminiWrapper)
    (resume_text job_description : string) (st : session_state)
    : session_state * list ui_event * result unit :=
  match gemini_wrapper with
  | Some wrapper =>
      match generate_content wrapper
              (analysis_prompt resume_text job_description)
              "gemini-2.5-pro" 0.2 with
      | Raise e => (st, [], Raise e)
      | Return analysis =>
          let st := append_message
                      (chat_message "assistant"
                         ("Resume Analysis:" ++ nl ++ nl ++ analysis)) st in
          match generate_content wrapper (questions_prompt analysis)
                  "gemini-2.5-pro" 0.7 with
          | Raise e => (st, [], Raise e)
          | Return questions =>
              let st := append_message
                          (chat_message "assistant"
                             ("Interview Questions:" ++ nl ++ nl ++ questions)) st in
              (st, [], Return tt)
          end
      end
  | None =>
      let st := append_message (chat_message "assistant" mock_analysis) st in
      let st := append_message (chat_message "assistant" mock_questions) st in
      (st, [st_warning "No valid Gemini API key found. Using mock responses."],
       Return tt)
  end.

(** The block [if start_button and not st.session_state.interview_started]
    of [main]: the new session state and what the run displayed. *)
Definition handle_start `{GenAI} (gemini_wrapper : option GeminiWrapper)
    (w : Widgets) (st : session_state) : session_state * list ui_event :=
  if start_button w && negb (interview_started st) then
    let validation_errors := validation_errors w in
    match validation_errors with
    | _ :: _ => (st, st_error <$> validation_errors)
    | [] =>
        let resume_text := "Sample resume text for " ++ candidate_name w in
        let st := append_message
                    (chat_message "system"
                       ("Interview started for candidate: " ++ candidate_name w))
                    st in
        let st := set_started true st in
        match run_analysis gemini_wrapper resume_text (job_description w) st with
        | (st, shown, Return _) => (st, (shown ++ [st_rerun])%list)
        | (st, shown, Raise e) =>
            (set_started false st,
             (shown ++ [st_error ("Error starting interview: " ++ str e)])%list)
        end
    end
  else (st, []).

(** The module-level [gemini_wrapper] of [app.py]: built only when the
    credential is set and is not the placeholder. *)
Definition module_gemini_wrapper (environ : gmap string string)
    : option GeminiWrapper :=
  if truthy_opt (environ !! GOOGLE_API_KEY)
     && negb (bool_decide (environ !! GOOGLE_API_KEY = Some placeholder_key))
  then GeminiWrapper_init <$> environ !! GOOGLE_API_KEY
  else None.

(** ** The session controller *)

(** The sources create the group chat with [max_round=50] and hand it to
    [autogen.GroupChatManager]; the loop that counts the rounds is in that
    library and not in the sources.  This module holds the loop as the
    specification describes it (sections 2, 3 and 4.3). *)
Module Controller.

(** Modelled from the spec: the session state of section 3, owned by the
    session controller, whose turn loop the sources do not contain. *)
Record SessionState : Type := {
  transcript : list Turn;
  roundCount : nat;
  terminated : bool
}.

(** The ceiling is the [max_round] the sources give the group chat. *)
Definition ceiling : nat := max_round group_chat.

(** Modelled from the spec: [startSession] of section 4.3 appends the seed
    turn; the sources have no such operation. *)
Definition startSession (seed : Turn) : SessionState :=
  {| transcript := [seed]; roundCount := 0; terminated := false |}.

Section turn_loop.

(** Any arbiter and any way of producing a role's text. *)
Variable nextSpeaker : option Role -> list Turn -> option Role.
Variable generate : Role -> list Turn -> string.

(** Modelled from the spec: one round of the turn loop, which the sources
    leave to the library.  The arbiter picks the next role; when it returns
    no role the session is terminated; otherwise that role's agent is
    invoked, its output is appended as a turn, [roundCount] goes up by one
    and the ceiling is checked.  A terminated session stays as it is. *)
Definition round (lastSpeaker : option Role) (s : SessionState)
    : option Role * SessionState :=
  if terminated s then (lastSpeaker, s)
  else
    match nextSpeaker lastSpeaker (transcript s) with
    | None =>
        (None,
         {| transcript := transcript s;
            roundCount := roundCount s;
            terminated := true |})
    | Some r =>
        let text := generate r (transcript s) in
        let n := S (roundCount s) in
        (Some r,
         {| transcript := (transcript s ++ [ {| role := r; content := text |} ])%list;
            roundCount := n;
            terminated := ceiling <=? n |})
    end.

(** Modelled from the spec: the turn loop, rounds repeated until the
    session is terminated, here for at most [fuel] rounds. *)
Fixpoint loop (fuel : nat) (lastSpeaker : option Role) (s : SessionState)
    : option Role * SessionState :=
  match fuel with
  | O => (lastSpeaker, s)
  | S fuel' =>
      if terminated s then (lastSpeaker, s)
      else let '(lastSpeaker', s') := round lastSpeaker s in
           loop fuel' lastSpeaker' s'
  end.

(** Modelled from the spec: the states a session can be in, freshly
    started or one round after a state it can be in. *)
Inductive reachable : option Role * SessionState -> Prop :=
| reachable_start seed : reachable (None, startSession seed)
| reachable_round lastSpeaker s :
    reachable (lastSpeaker, s) -> reachable (round lastSpeaker s).

End turn_loop.

(** What every state of a session satisfies: the count is within the
    ceiling, and below it while the session runs. *)
Definition within_ceiling (s : SessionState) : Prop :=
  roundCount s <= ceiling
  /\ (terminated s = false -> roundCount s < ceiling).

(** The arbiter of the sources behind the interface of the specification,
    [nextSpeaker(lastSpeaker, transcript)]. *)
Definition role_of (a : agent) : option Role :=
  match a with
  | user_proxy_agent => Some Candidate
  | resume_analyzer_agent => Some Analyzer
  | question_generator_agent => Some QuestionGenerator
  | interviewer_agent => Some Interviewer
  | evaluator_agent => Some Evaluator
  | foreign_agent _ => None
  end.

Definition source_arbiter (lastSpeaker : option Role) (transcript : list Turn)
    : option Role :=
  match custom_speaker_selection (agent_of <$> lastSpeaker) (chat_with transcript) with
  | Return (Some a) => role_of a
  | _ => None
  end.

End Controller.

(** ** The voice module *)

(** [voice_module.py]: recording in the background, recognising what was
    recorded, speaking a text.  The three module-level variables the
    functions share are the fields of [module_state]; the recogniser object
    [_recognizer] never changes and is part of [SpeechLib]. *)
Module Voice.

(** The libraries [speech_recognition] and [pyttsx3]; every call can
    raise. *)
Class SpeechLib : Type := {
  microphone : Type;
  audio : Type;
  stopper : Type;
  engine : Type;
  Microphone : result microphone;
  mic_enter : microphone -> result microphone;
  mic_exit : microphone -> result unit;
  adjust_for_ambient_noise : microphone -> Q -> result unit;
  listen : microphone -> option nat -> option nat -> result audio;
  listen_in_background : microphone -> result stopper;
  call_stopper : stopper -> result unit;
  recognize_google : audio -> result string;
  pyttsx3_init : result engine;
  say : engine -> string -> result unit;
  runAndWait : engine -> result unit
}.

(** [isinstance(e, cls)] for the exception classes of
    [speech_recognition], each a direct subclass of [Exception]. *)
Definition is_instance (cls : string) (e : exception) : bool :=
  match e with
  | Exception c _ => String.eqb c cls
  | _ => false
  end.

(** [with source as s: body] *)
Definition with_source `{SpeechLib} {A : Type} (source : microphone)
    (body : microphone -> result A) : result A :=
  let! s := mic_enter source in
  match body s with
  | Return a => let! _ := mic_exit source in Return a
  | Raise e =>
      match mic_exit source with
      | Return _ => Raise e
      | Raise e' => Raise e'
      end
  end.

Record module_state `{SpeechLib} : Type := {
  _recording : bool;
  _audio_data : option audio;
  _stop_listening : option stopper
}.

(** The module as imported. *)
Definition initial_state `{SpeechLib} : module_state :=
  {| _recording := false; _audio_data := None; _stop_listening := None |}.

(** The callback the background listener calls with what it recorded. *)
Definition audio_callback `{SpeechLib} (a : audio) (st : module_state)
    : module_state :=
  {| _recording := _recording st;
     _audio_data := Some a;
     _stop_listening := _stop_listening st |}.

(** [start_listening()]: the state it leaves and what it returns. *)
Definition start_listening `{SpeechLib} (st : module_state)
    : module_state * bool :=
  if _recording st then (st, false)
  else
    let st := {| _recording := _recording st;
                 _audio_data := None;
                 _stop_listening := _stop_listening st |} in
    match (let! source := Microphone in
           let! _ := with_source source
                       (fun s => adjust_for_ambient_noise s 0.5) in
           listen_in_background source) with
    | Return stop =>
        ({| _recording := true;
            _audio_data := _audio_data st;
            _stop_listening := Some stop |}, true)
    | Raise e => (st, false)
    end.

(** [stop_listening()]: the state it leaves and what it returns. *)
Definition stop_listening `{SpeechLib} (st : module_state)
    : module_state * string :=
  if negb (_recording st) then (st, "Not currently recording.")
  else
    match (match _stop_listening st with
           | Some stop => call_stopper stop
           | None => Return tt
           end) with
    | Raise e =>
        ({| _recording := false;
            _audio_data := _audio_data st;
            _stop_listening := _stop_listening st |},
         "Sorry, an error occurred: " ++ str e)
    | Return _ =>
        let st := {| _recording := false;
                     _audio_data := _audio_data st;
                     _stop_listening := None |} in
        match _audio_data st with
        | None => (st, "Sorry, I didn't hear anything. Please try again.")
        | Some a =>
            match recognize_google a with
            | Return text => (st, text)
            | Raise e =>
                if is_instance "UnknownValueError" e then
                  (st, "Sorry, I couldn't understand what you said. Please try again.")
                else if is_instance "RequestError" e then
                  (st, "Sorry, there was an error with the speech recognition service. Please try again.")
                else (st, "Sorry, an error occurred: " ++ str e)
            end
        end
    end.

Definition is_recording `{SpeechLib} (st : module_state) : bool :=
  _recording st.

(** [listen_to_user(timeout, phrase_time_limit)]; its third parameter,
    [stop_callback], is not used by the function. *)
Definition listen_to_user `{SpeechLib} (timeout phrase_time_limit : option nat)
    : result string :=
  try_except
    (let! source := Microphone in
     with_source source
       (fun source =>
          let! _ := adjust_for_ambient_noise source 0.5 in
          let! a := listen source timeout phrase_time_limit in
          recognize_google a))
    (fun e =>
       if is_instance "WaitTimeoutError" e then
         Return "Sorry, I didn't hear anything. Please try again."
       else if is_instance "UnknownValueError" e then
         Return "Sorry, I couldn't understand what you said. Please try again."
       else if is_instance "RequestError" e then
         Return "Sorry, there was an error with the speech recognition service. Please try again."
       else Return ("Sorry, an error occurred: " ++ str e)).

(** [speak_to_user(text)] *)
Definition speak_to_user `{SpeechLib} (text : string) : result unit :=
  try_except
    (let! engine := pyttsx3_init in
     let! _ := say engine text in
     runAndWait engine)
    (fun e => Return tt).

End Voice.

(** ** The other handlers of [main] *)

(** What the handlers below show besides errors and warnings. *)
Inductive display : Type :=
| ui (e : ui_event)
| st_info (text : string)
| recording_indicator.

Definition dquote : string := String (ascii_of_nat 34) "".

Definition mock_responses : list string :=
  [ "That's interesting! Could you tell me more about your approach to problem-solving?";
    "Thanks for sharing. How do you typically handle challenging situations in a team environment?";
    "I appreciate your detailed answer. Can you give me a specific example of how you've applied these skills?";
    "That's helpful context. What would you say is your greatest strength in this area?";
    "Great explanation. How do you stay updated with the latest developments in your field?" ].

(** [random.choice(l)], the draw being given by [drawn]. *)
Definition random_choice (drawn : nat) (l : list string) : string :=
  nth (drawn mod length l) l "".

(** The prompt of the chat-input branch. *)
Definition response_prompt (user_input : string) : string :=
  "
                                You are 'Alex', a friendly, professional AI interviewer.
                                
                                The candidate just said: " ++ dquote ++ "" ++ user_input ++ "" ++ dquote ++ "
                                
                                Respond to their answer and ask a relevant follow-up question.
                                Keep your response conversational and engaging.
                                ".

(** The prompt of the voice branch, indented further in the source. *)
Definition voice_response_prompt (user_input : string) : string :=
  "
                                        You are 'Alex', a friendly, professional AI interviewer.
                                        
                                        The candidate just said: " ++ dquote ++ "" ++ user_input ++ "" ++ dquote ++ "
                                        
                                        Respond to their answer and ask a relevant follow-up question.
                                        Keep your response conversational and engaging.
                                        ".

(** The start of [main]: without a configured key the page shows an error
    and the script stops. *)
Definition api_key_configured (environ : gmap string string) : bool :=
  negb (negb (truthy_opt (environ !! GOOGLE_API_KEY))
        || bool_decide (environ !! GOOGLE_API_KEY = Some placeholder_key)).

(** The "Reset Interview" button, [pressed] being what [st.button]
    returned. *)
Definition handle_reset (pressed : bool) (st : session_state)
    : session_state * list display :=
  if interview_started st then
    if pressed then
      ({| chat_history := []; interview_started := false |}, [ui st_rerun])
    else (st, [])
  else (st, []).

(** The chat-input branch at the end of [main]; [user_input] is what
    [st.chat_input] returned. *)
Definition handle_chat_input `{GenAI} (gemini_wrapper : option GeminiWrapper)
    (drawn : nat) (voice_mode : bool) (user_input : option string)
    (st : session_state) : session_state * list display :=
  if interview_started st && negb voice_mode then
    if truthy_opt user_input then
      let user_input := default "" user_input in
      let st := append_message (chat_message "user" user_input) st in
      match gemini_wrapper with
      | Some wrapper =>
          match generate_content wrapper (response_prompt user_input)
                  "gemini-2.5-pro" 0.5 with
          | Return response =>
              (append_message (chat_message "assistant" response) st,
               [ui st_rerun])
          | Raise e =>
              (st, [ui (st_error ("Error processing response: " ++ str e));
                    ui st_rerun])
          end
      | None =>
          let response := random_choice drawn mock_responses in
          (append_message (chat_message "assistant" response) st,
           [ui st_rerun])
      end
    else (st, [])
  else if interview_started st && voice_mode then
    (st, [st_info "Voice mode is enabled. Use the 'Start Speaking' button in the sidebar to begin recording, then click 'Stop Speaking' when you're done."])
  else (st, []).

(** [speak_to_user] under its own [try] in the voice branch. *)
Definition speak_reply `{Voice.SpeechLib} (response_text : string)
    : list display :=
  match Voice.speak_to_user response_text with
  | Return _ => []
  | Raise tts_error =>
      [ui (st_warning ("Text-to-speech error: " ++ str tts_error))]
  end.

(** The voice branch of the sidebar; [speak_button] is what the
    "Start Speaking"/"Stop Speaking" button returned. *)
Definition handle_voice `{GenAI} `{Voice.SpeechLib}
    (gemini_wrapper : option GeminiWrapper) (drawn : nat)
    (voice_mode speak_button : bool)
    (st : session_state) (vs : Voice.module_state)
    : session_state * Voice.module_state * list display :=
  if voice_mode && interview_started st then
    let info := st_info "Voice mode is enabled. Click the button to start speaking, then click again to stop." in
    let current_recording_state := Voice.is_recording vs in
    let indicator :=
      if current_recording_state
      then [recording_indicator;
            st_info "Recording... Click 'Stop Speaking' when you're done."]
      else [] in
    if speak_button then
      if current_recording_state then
        let '(vs, user_input) := Voice.stop_listening vs in
        if PyStr.truthy user_input
           && negb (PyStr.startswith "Sorry" user_input) then
          let st := append_message (chat_message "user" user_input) st in
          match gemini_wrapper with
          | Some wrapper =>
              match generate_content wrapper (voice_response_prompt user_input)
                      "gemini-2.5-pro" 0.5 with
              | Return response_text =>
                  (append_message (chat_message "assistant" response_text) st,
                   vs,
                   (info :: speak_reply response_text ++ [ui st_rerun])%list)
              | Raise agent_error =>
                  (st, vs,
                   [info;
                    ui (st_error ("Error processing response: "
                                     ++ str agent_error));
                    ui st_rerun])
              end
          | None =>
              let response_text := random_choice drawn mock_responses in
              (append_message (chat_message "assistant" response_text) st,
               vs,
               (info :: speak_reply response_text ++ [ui st_rerun])%list)
          end
        else (st, vs, [info; ui (st_error user_input); ui st_rerun])
      else
        let '(vs, success) := Voice.start_listening vs in
        if success then (st, vs, [info; ui st_rerun])
        else (st, vs,
              (info
               :: ui (st_error "Failed to start recording. Please try again.")
               :: indicator)%list)
    else (st, vs, (info :: indicator)%list)
  else (st, vs, []).

(** ** The summary of the test runner *)

(** [run_tests.py], the end of [main]: each test has returned [True],
    [False] or, when it was skipped, [None]. *)
Module RunTests.

Record tally : Type := { passed : nat; failed : nat; skipped : nat }.

Definition count (t : tally) (entry : string * option bool) : tally :=
  match snd entry with
  | Some true =>
      {| passed := passed t + 1; failed := failed t; skipped := skipped t |}
  | Some false =>
      {| passed := passed t; failed := failed t + 1; skipped := skipped t |}
  | None =>
      {| passed := passed t; failed := failed t; skipped := skipped t + 1 |}
  end.

(** The loop over [test_results]. *)
Definition summarize (test_results : list (string * option bool)) : tally :=
  fold_left count test_results {| passed := 0; failed := 0; skipped := 0 |}.

(** What [main] returns, and the exit status made of it. *)
Definition main_result (test_results : list (string * option bool)) : bool :=
  failed (summarize test_results) =? 0.

Definition exit_status (test_results : list (string * option bool)) : nat :=
  if main_result test_results then 0 else 1.

End RunTests.

(** ** Predicates and sample inputs of the statements *)

(** The text the arbiter reads from a transcript: the content of its last
    turn, or the empty string. *)
Definition last_turn_content (transcript : list Turn) : string :=
  match last transcript with
  | Some t => content t
  | None => ""
  end.

(** The Interviewer turn a Candidate reply answers: the latest Interviewer
    turn before the last turn of the transcript. *)
Definition is_interviewer (t : Turn) : bool :=
  match role t with Interviewer => true | _ => false end.

Definition previous_interviewer_turn (transcript : list Turn) : option Turn :=
  List.find is_interviewer (rev (removelast transcript)).

(** The Interviewer has closed the interview: its latest turn before the
    last one holds the termination token. *)
Definition token_pending (transcript : list Turn) : bool :=
  match previous_interviewer_turn transcript with
  | Some t => PyStr.str_in "TERMINATE" (content t)
  | None => false
  end.


(** The seed message of the integration test. *)
Definition seed_turn : Turn :=
  {| role := Candidate;
     content := "Resume: test resume
Job Description: test job" |}.

Definition keyword_answer : Turn :=
  {| role := Candidate;
     content := "As my RESUME says, I wrote the Job Description parser." |}.

Definition mid_interview : list Turn :=
  [ seed_turn;
    {| role := Analyzer; content := "{}" |};
    {| role := QuestionGenerator; content := "[]" |};
    {| role := Interviewer; content := "Tell me about your last project." |};
    keyword_answer ].

Definition closing_transcript : list Turn :=
  [ {| role := Interviewer;
       content := "That's all the questions I have for you today. TERMINATE" |};
    {| role := Candidate; content := "Thank you." |} ].

(** A service that refuses every request. *)
Definition quota_error : exception :=
  Exception "ResourceExhausted" "429 quota exceeded".

Definition refusing_service : GenAI :=
  {| model_object := unit;
     response_object := unit;
     GenerativeModel := fun _ _ => Return tt;
     model_generate_content := fun _ _ => Raise quota_error;
     response_text := fun _ => Return "" |}.

(** A service that refuses one prompt only. *)
Definition picky_service : GenAI :=
  {| model_object := unit;
     response_object := string;
     GenerativeModel := fun _ _ => Return tt;
     model_generate_content :=
       fun _ prompt =>
         if String.eqb prompt "Test prompt" then Raise quota_error
         else Return "Thank you for your answer.";
     response_text := fun response => Return response |}.

(** The agent and the wrapper the integration tests build. *)
Definition test_agent : GeminiAssistantAgent :=
  {| name := "TestAgent";
     system_message := "Test system message";
     llm_config :=
       {| config_list :=
            [ {| entry_model := "gemini-2.5-pro"; entry_api_key := "test_api_key";
                 entry_api_type := "openai" |} ];
          config_temperature := 0.5 |};
     agent_model := "gemini-2.5-pro";
     agent_temperature := 0.5 |}.

Definition test_wrapper : GeminiWrapper := GeminiWrapper_init "test_api_key".

Definition hello : list message :=
  messages_of [ {| role := Candidate; content := "Hello" |} ].

Definition hello_prompt : string :=
  "System: Test system message" ++ nl ++ nl
  ++ "User: Hello" ++ nl ++ nl ++ "Assistant: ".

Definition empty_key_environ : gmap string string :=
  {[ GOOGLE_API_KEY := "" ]}.

Definition fresh_session : session_state :=
  {| chat_history := []; interview_started := false |}.

Definition no_job_description : Widgets :=
  {| candidate_name := "Ada Lovelace";
     resume_file := Some {| size := 2048 |};
     job_description := "";
     voice_mode := false;
     start_button := true |}.

Definition good_start : Widgets :=
  {| candidate_name := "Ada Lovelace";
     resume_file := Some {| size := 2048 |};
     job_description :=
       "Senior engineer for the analytical engine team: Python, numerics, testing.";
     voice_mode := false;
     start_button := true |}.

(** A session on the arbiter of the sources in which every generation
    fails, and its state after the first round. *)
Definition failing_generate (r : Role) (transcript : list Turn) : string :=
  "Error: 429 quota exceeded".

Definition after_first_round : option Role * Controller.SessionState :=
  Controller.round Controller.source_arbiter failing_generate None
    (Controller.startSession seed_turn).

(** ** The arbiter on messages whose content may be [None] *)

(** What a message of the group chat stores under a key: a text or
    Python's [None], as the chat library stores for a message without
    text. *)
Inductive pyvalue : Type :=
| PyText (s : string)
| PyNone.

Abbreviation raw_message := (gmap string pyvalue).

Definition AttributeError (msg : string) : exception :=
  Exception "AttributeError" msg.

Definition TypeError (msg : string) : exception :=
  Exception "TypeError" msg.

(** [v.lower()] *)
Definition lower_of (v : pyvalue) : result string :=
  match v with
  | PyText s => Return (PyStr.lower s)
  | PyNone => Raise (AttributeError "'NoneType' object has no attribute 'lower'")
  end.

(** [sub in v] *)
Definition in_value (sub : string) (v : pyvalue) : result bool :=
  match v with
  | PyText s => Return (PyStr.str_in sub s)
  | PyNone => Raise (TypeError "argument of type 'NoneType' is not iterable")
  end.

(** [custom_speaker_selection] once more, on the messages as the group
    chat holds them: the same branches, with the calls on the last message
    able to fail when it is not a text.  [and] evaluates its second operand
    only when the first is true. *)
Definition custom_speaker_selection_raw (last_speaker : option agent)
    (messages : list raw_message) : result (option agent) :=
  let! last_message :=
    match last messages with
    | Some m =>
        match m !! "content" with
        | Some v => Return v
        | None => Raise (KeyError "content")
        end
    | None => Return (PyText "")
    end in
  if is_None last_speaker || speaker_is last_speaker user_proxy_agent then
    let! lowered := lower_of last_message in
    let! both :=
      if PyStr.str_in "resume" lowered then
        let! lowered := lower_of last_message in
        Return (PyStr.str_in "job description" lowered)
      else Return false in
    if both then Return (Some resume_analyzer_agent)
    else if speaker_is last_speaker interviewer_agent then
      let! found := in_value "TERMINATE" last_message in
      if found then Return (Some evaluator_agent)
      else Return (Some user_proxy_agent)
    else Return (Some interviewer_agent)
  else if speaker_is last_speaker resume_analyzer_agent then
    Return (Some question_generator_agent)
  else if speaker_is last_speaker question_generator_agent then
    Return (Some interviewer_agent)
  else if speaker_is last_speaker interviewer_agent then
    Return (Some user_proxy_agent)
  else if speaker_is last_speaker evaluator_agent then
    Return None
  else Return (Some user_proxy_agent).

(** A message of texts as the group chat holds it. *)
Definition raw_of (m : message) : raw_message := PyText <$> m.

(** The chat library's message for a turn without text. *)
Definition contentless : raw_message :=
  {[ "role" := PyText "assistant"; "content" := PyNone ]}.

(** ** Further predicates and sample inputs *)

(** The session a valid start leaves behind: the history has gained the
    system message and two assistant messages, and the interview is
    started. *)
Definition started_with (w : Widgets) (analysis questions : string)
    (st : session_state) : session_state :=
  {| chat_history :=
       (chat_history st
        ++ [ chat_message "system"
               ("Interview started for candidate: " ++ candidate_name w);
             chat_message "assistant" analysis;
             chat_message "assistant" questions ])%list;
     interview_started := true |}.

(** What the arbiter reads from a group chat: the content of the last
    message, the empty string when there is no message, nothing when the
    last message has no key ["content"]. *)
Definition last_message_text (groupchat : GroupChat) : option string :=
  match last (messages groupchat) with
  | Some m => m !! "content"
  | None => Some ""
  end.

(** The speakers a conversation can see as [last_speaker]: none at the
    start, afterwards whoever the arbiter chose last, on whatever the group
    chat held at that time. *)
Inductive selected_after_start : option agent -> Prop :=
| selected_at_start : selected_after_start None
| selected_next last_speaker groupchat next :
    selected_after_start last_speaker ->
    custom_speaker_selection last_speaker groupchat = Return (Some next) ->
    selected_after_start (Some next).

(** The paragraph one message adds to the prompt of an agent. *)
Definition message_paragraph (m : message) (content : string) : string :=
  let role := get m "role" "user" in
  (if String.eqb role "user" then "User"
   else if String.eqb role "assistant" then "Assistant"
   else PyStr.capitalize role)
  ++ ": " ++ content ++ nl ++ nl.

(** A message that has no key ["content"]. *)
Definition lacks_content (m : message) : Prop := m !! "content" = None.

(** Speech libraries in which every call succeeds and the recogniser
    returns the words that were recorded. *)
Definition working_speech : Voice.SpeechLib :=
  {| Voice.microphone := unit;
     Voice.audio := string;
     Voice.stopper := unit;
     Voice.engine := unit;
     Voice.Microphone := Return tt;
     Voice.mic_enter := fun _ => Return tt;
     Voice.mic_exit := fun _ => Return tt;
     Voice.adjust_for_ambient_noise := fun _ _ => Return tt;
     Voice.listen := fun _ _ _ => Return "I have five years of experience";
     Voice.listen_in_background := fun _ => Return tt;
     Voice.call_stopper := fun _ => Return tt;
     Voice.recognize_google := fun a => Return a;
     Voice.pyttsx3_init := Return tt;
     Voice.say := fun _ _ => Return tt;
     Voice.runAndWait := fun _ => Return tt |}.

(** A recording in progress, with and without something heard. *)
Definition recording_silence : @Voice.module_state working_speech :=
  @Voice.Build_module_state working_speech true None (Some tt).

Definition recording_apology : @Voice.module_state working_speech :=
  @Voice.Build_module_state working_speech true
    (Some "Sorry, could you repeat the question?") (Some tt).

Definition stale_audio : @Voice.module_state working_speech :=
  @Voice.Build_module_state working_speech false
    (Some "an earlier answer") None.

Definition running_session : session_state :=
  {| chat_history := [ chat_message "system" "Interview started for candidate: Ada Lovelace" ];
     interview_started := true |}.

Definition test_environ : gmap string string :=
  {[ GOOGLE_API_KEY := "test_api_key" ]}.

(** * Properties *)

(** ** Strings *)

Section string_facts.

Import PyStr.

Lemma startswith_iff p s :
  startswith p s = true <-> exists post, s = p ++ post.
Proof.
  revert s. induction p as [|a p IH]; intros s; simpl.
  - split; [intros _; by exists s | done].
  - destruct s as [|b s]; simpl.
    + split; [done | intros [post H]; discriminate].
    + rewrite andb_true_iff, Ascii.eqb_eq, IH. split.
      * intros [-> [post ->]]. by exists post.
      * intros [post H]. injection H as -> ->. eauto.
Qed.

Lemma str_in_iff sub s :
  str_in sub s = true <-> exists pre post, s = pre ++ sub ++ post.
Proof.
  induction s as [|c s IH]; simpl; rewrite orb_true_iff, startswith_iff.
  - split.
    + intros [[post H]|H]; [|done]. exists "", post. done.
    + intros [[|? ?] [post H]]; [left; by exists post | discriminate].
  - rewrite IH. split.
    + intros [[post H]|[pre [post H]]].
      * exists "", post. done.
      * exists (String c pre), post. simpl. by rewrite H.
    + intros [[|c' pre] [post H]].
      * left. by exists post.
      * right. simpl in H. injection H as _ ->. eauto.
Qed.

Lemma startswith_ignoring_case_lower p s :
  startswith_ignoring_case p s = startswith (lower p) (lower s).
Proof.
  revert s. induction p as [|a p IH]; intros [|b s]; simpl; try done.
  unfold same_char_ignoring_case. by rewrite IH.
Qed.

(** Looking for a marker while ignoring case is what the code does:
    lower-case the text and look for the lower-case marker. *)
Lemma occurs_ignoring_case_lower marker s :
  occurs_ignoring_case marker s = str_in (lower marker) (lower s).
Proof.
  induction s as [|c s IH]; simpl.
  - by rewrite (startswith_ignoring_case_lower marker "").
  - by rewrite (startswith_ignoring_case_lower marker (String c s)), IH.
Qed.

Lemma lower_app s1 s2 : lower (s1 ++ s2) = lower s1 ++ lower s2.
Proof. induction s1 as [|c s1 IH]; simpl; by rewrite ?IH. Qed.

Lemma lower_length s : String.length (lower s) = String.length s.
Proof. induction s as [|c s IH]; simpl; by rewrite ?IH. Qed.

Lemma lower_split s l r :
  lower s = l ++ r -> exists s1 s2, s = s1 ++ s2 /\ lower s1 = l /\ lower s2 = r.
Proof.
  revert s. induction l as [|c l IH]; intros s H; simpl in H.
  - by exists "", s.
  - destruct s as [|d s]; [discriminate|]. simpl in H.
    injection H as Hc H. destruct (IH _ H) as (s1 & s2 & -> & <- & <-).
    exists (String d s1), s2. simpl. by rewrite Hc.
Qed.

(** A text contains a marker, ignoring case, exactly when some stretch
    of the text spells the marker up to letter case. *)
Lemma occurs_ignoring_case_iff marker s :
  occurs_ignoring_case marker s = true <->
  exists pre mid post, s = pre ++ mid ++ post /\ lower mid = lower marker.
Proof.
  rewrite occurs_ignoring_case_lower, str_in_iff. split.
  - intros (l & r & H).
    apply lower_split in H as (pre & rest & -> & <- & H).
    apply lower_split in H as (mid & post & -> & H & <-). eauto.
  - intros (pre & mid & post & -> & H).
    exists (lower pre), (lower post). by rewrite !lower_app, H.
Qed.

End string_facts.

(** ** The last message of a transcript *)

Lemma getitem_content (t : Turn) :
  getitem (message_of t) "content" = Return (content t).
Proof. unfold getitem, message_of. by simplify_map_eq. Qed.

Lemma last_message_of transcript :
  match last (messages_of transcript) with
  | Some m => getitem m "content"
  | None => Return ""
  end = Return (last_turn_content transcript).
Proof.
  unfold messages_of, last_turn_content. rewrite fmap_last.
  destruct (last transcript) as [t|]; simpl; [apply getitem_content | done].
Qed.

(** The arbiter on the group chat holding a transcript, with the read of
    the last message done. *)
Lemma custom_speaker_selection_chat last_speaker transcript :
  custom_speaker_selection last_speaker (chat_with transcript) =
  let last_message := last_turn_content transcript in
  if is_None last_speaker || speaker_is last_speaker user_proxy_agent then
    if PyStr.str_in "resume" (PyStr.lower last_message)
       && PyStr.str_in "job description" (PyStr.lower last_message)
    then Return (Some resume_analyzer_agent)
    else Return (Some interviewer_agent)
  else if speaker_is last_speaker resume_analyzer_agent then
    Return (Some question_generator_agent)
  else if speaker_is last_speaker question_generator_agent then
    Return (Some interviewer_agent)
  else if speaker_is last_speaker interviewer_agent then
    Return (Some user_proxy_agent)
  else if speaker_is last_speaker evaluator_agent then
    Return None
  else Return (Some user_proxy_agent).
Proof.
  unfold custom_speaker_selection, chat_with; simpl messages.
  rewrite last_message_of. simpl bind.
  destruct last_speaker as [[]|]; simpl; try done.
Qed.

(** ** The arbiter's transitions *)

(** The marker test of the arbiter, phrased on the text as it was typed. *)
Lemma markers_found (text : string) :
  PyStr.occurs_ignoring_case "resume" text = true ->
  PyStr.occurs_ignoring_case "job description" text = true ->
  PyStr.str_in "resume" (PyStr.lower text)
  && PyStr.str_in "job description" (PyStr.lower text) = true.
Proof.
  intros Hresume Hjd. rewrite occurs_ignoring_case_lower in Hresume, Hjd.
  change (PyStr.lower "resume") with "resume" in Hresume.
  change (PyStr.lower "job description") with "job description" in Hjd.
  by rewrite Hresume, Hjd.
Qed.

(** The [evaluator_agent] is returned from one place only, a branch that
    asks for [last_speaker == interviewer_agent] inside the branch where
    [last_speaker] is [None] or the [user_proxy_agent]: no input gets
    there. *)
Lemma evaluator_never_selected last_speaker groupchat :
  custom_speaker_selection last_speaker groupchat <> Return (Some evaluator_agent).
Proof.
  unfold custom_speaker_selection.
  destruct (match last (messages groupchat) with
            | Some m => getitem m "content"
            | None => Return ""
            end) as [last_message|e]; simpl; [|done].
  destruct last_speaker as [[]|]; simpl; try done;
    by destruct (_ && _).
Qed.

(** C9: after the Analyzer the QuestionGenerator speaks, whatever the
    transcript holds. *)
Theorem analyzer_then_question_generator (transcript : list Turn) :
  custom_speaker_selection (Some (agent_of Analyzer)) (chat_with transcript)
  = Return (Some (agent_of QuestionGenerator)).
Proof. by rewrite custom_speaker_selection_chat. Qed.

(** C3: after the Interviewer the Candidate speaks, whatever the transcript
    holds, also when its last turn carries the termination token; the
    Evaluator is not chosen on the Interviewer's own turn. *)
Theorem interviewer_then_candidate (transcript : list Turn) :
  custom_speaker_selection (Some (agent_of Interviewer)) (chat_with transcript)
  = Return (Some (agent_of Candidate))
  /\ custom_speaker_selection (Some (agent_of Interviewer)) (chat_with transcript)
     <> Return (Some (agent_of Evaluator)).
Proof. rewrite custom_speaker_selection_chat. by split. Qed.

(** The walk of the integration test, on its message without a role. *)
Example integration_test_walk :
  let mock_groupchat :=
    {| agents := []; max_round := 0;
       messages := [ {[ "content" := "Resume: test resume
Job Description: test job" ]} ] |} in
  custom_speaker_selection None mock_groupchat
  = Return (Some resume_analyzer_agent)
  /\ custom_speaker_selection (Some resume_analyzer_agent) mock_groupchat
     = Return (Some question_generator_agent)
  /\ custom_speaker_selection (Some question_generator_agent) mock_groupchat
     = Return (Some interviewer_agent)
  /\ custom_speaker_selection (Some interviewer_agent) mock_groupchat
     = Return (Some user_proxy_agent).
Proof. vm_compute. repeat split; reflexivity. Qed.

(** A last message without the key ["content"] makes the arbiter raise. *)
Example arbiter_missing_content :
  custom_speaker_selection None
    {| agents := []; max_round := 0; messages := [ {[ "role" := "user" ]} ] |}
  = Raise (KeyError "content").
Proof. vm_compute. reflexivity. Qed.

Example interviewer_with_token_then_candidate :
  custom_speaker_selection (Some interviewer_agent)
    (chat_with [ {| role := Interviewer; content := "Have a great day! TERMINATE" |} ])
  = Return (Some user_proxy_agent).
Proof. vm_compute. reflexivity. Qed.

(** C6: a [last_speaker] that is neither [None] nor one of the five role
    agents gets the Candidate as next speaker, on every transcript, the
    empty one included; the call returns and does not raise. *)
Theorem unrecognized_speaker_then_candidate (a : agent) (transcript : list Turn) :
  (forall r : Role, a <> agent_of r) ->
  custom_speaker_selection (Some a) (chat_with transcript)
  = Return (Some (agent_of Candidate))
  /\ ~ raises (custom_speaker_selection (Some a) (chat_with transcript)).
Proof.
  intros Hother. rewrite custom_speaker_selection_chat.
  destruct a; simpl;
    try (exfalso;
         first [ by apply (Hother Candidate) | by apply (Hother Analyzer)
               | by apply (Hother QuestionGenerator)
               | by apply (Hother Interviewer) | by apply (Hother Evaluator) ]).
  split; [done | by intros [e He]].
Qed.

Lemma unrecognized_speaker_then_candidate_witness :
  (forall r : Role, foreign_agent 7 <> agent_of r)
  /\ custom_speaker_selection (Some (foreign_agent 7)) (chat_with [])
     = Return (Some (agent_of Candidate))
  /\ ~ raises (custom_speaker_selection (Some (foreign_agent 7)) (chat_with [])).
Proof.
  assert (forall r : Role, foreign_agent 7 <> agent_of r) as Hother
    by (intros r; destruct r; discriminate).
  split; [exact Hother|].
  exact (unrecognized_speaker_then_candidate (foreign_agent 7) [] Hother).
Defined.

(** C2: at session start ([last_speaker] is [None]) a transcript whose last
    message holds both markers, in any letter case, goes to the Analyzer. *)
Theorem start_with_markers_then_analyzer (transcript : list Turn) (t : Turn) :
  last transcript = Some t ->
  PyStr.occurs_ignoring_case "resume" (content t) = true ->
  PyStr.occurs_ignoring_case "job description" (content t) = true ->
  custom_speaker_selection None (chat_with transcript)
  = Return (Some (agent_of Analyzer)).
Proof.
  intros Hlast Hresume Hjd. rewrite custom_speaker_selection_chat.
  unfold last_turn_content. rewrite Hlast. simpl.
  by rewrite (markers_found _ Hresume Hjd).
Qed.

Lemma start_with_markers_then_analyzer_witness :
  last [seed_turn] = Some seed_turn
  /\ PyStr.occurs_ignoring_case "resume" (content seed_turn) = true
  /\ PyStr.occurs_ignoring_case "job description" (content seed_turn) = true
  /\ custom_speaker_selection None (chat_with [seed_turn])
     = Return (Some (agent_of Analyzer)).
Proof.
  split; [reflexivity|]. split; [reflexivity|]. split; [reflexivity|].
  exact (start_with_markers_then_analyzer [seed_turn] seed_turn
           eq_refl eq_refl eq_refl).
Defined.

(** C10: the marker test comes first also for a Candidate turn: a
    Candidate message that holds both markers sends the conversation back
    to the Analyzer instead of on to the Interviewer. *)
Theorem candidate_with_markers_then_analyzer (transcript : list Turn) (t : Turn) :
  last transcript = Some t ->
  PyStr.occurs_ignoring_case "resume" (content t) = true ->
  PyStr.occurs_ignoring_case "job description" (content t) = true ->
  custom_speaker_selection (Some (agent_of Candidate)) (chat_with transcript)
  = Return (Some (agent_of Analyzer)).
Proof.
  intros Hlast Hresume Hjd. rewrite custom_speaker_selection_chat.
  unfold last_turn_content. rewrite Hlast. simpl.
  by rewrite (markers_found _ Hresume Hjd).
Qed.

Lemma candidate_with_markers_then_analyzer_witness :
  last mid_interview = Some keyword_answer
  /\ PyStr.occurs_ignoring_case "resume" (content keyword_answer) = true
  /\ PyStr.occurs_ignoring_case "job description" (content keyword_answer) = true
  /\ custom_speaker_selection (Some (agent_of Candidate)) (chat_with mid_interview)
     = Return (Some (agent_of Analyzer)).
Proof.
  split; [reflexivity|]. split; [reflexivity|]. split; [reflexivity|].
  exact (candidate_with_markers_then_analyzer mid_interview keyword_answer
           eq_refl eq_refl eq_refl).
Defined.

(** *** Termination token *)

(** C1: the Interviewer has closed with the termination token and the
    Candidate has answered; the arbiter, called for the Candidate, hands
    the floor back to the Interviewer and not to the Evaluator. *)
Theorem token_before_candidate_not_detected :
  token_pending closing_transcript = true
  /\ custom_speaker_selection (Some (agent_of Candidate)) (chat_with closing_transcript)
     = Return (Some (agent_of Interviewer))
  /\ custom_speaker_selection (Some (agent_of Candidate)) (chat_with closing_transcript)
     <> Return (Some (agent_of Evaluator)).
Proof.
  split; [reflexivity|].
  assert (custom_speaker_selection (Some (agent_of Candidate))
            (chat_with closing_transcript)
          = Return (Some (agent_of Interviewer))) as -> by (vm_compute; reflexivity).
  by split.
Qed.

(** Without the markers in the last message a Candidate turn always goes
    to the Interviewer, with or without the token in an earlier turn. *)
Lemma candidate_without_markers_then_interviewer (transcript : list Turn) :
  PyStr.str_in "resume" (PyStr.lower (last_turn_content transcript))
  && PyStr.str_in "job description" (PyStr.lower (last_turn_content transcript))
  = false ->
  custom_speaker_selection (Some (agent_of Candidate)) (chat_with transcript)
  = Return (Some (agent_of Interviewer)).
Proof. intros H. rewrite custom_speaker_selection_chat. simpl. by rewrite H. Qed.

(** ** The generation calls *)

Section generation_facts.

Context `{GenAI}.

Lemma generate_content_returns (self : GeminiWrapper) (prompt model : string)
    (temp : Q) :
  exists text, generate_content self prompt model temp = Return text.
Proof.
  unfold generate_content, try_except.
  destruct (call_service model temp prompt); eauto.
Qed.

Lemma format_messages_of (transcript : list Turn) (formatted_prompt : string) :
  exists text,
    format_messages formatted_prompt (messages_of transcript) = Return text.
Proof.
  revert formatted_prompt.
  induction transcript as [|t transcript IH]; intros formatted_prompt; simpl.
  - eauto.
  - rewrite getitem_content. simpl. apply IH.
Qed.

(** On a transcript of turns the reply of an agent is always a text:
    building the prompt finds every key it reads, and the service call
    is guarded. *)
Lemma generate_reply_returns (self : GeminiAssistantAgent)
    (transcript : list Turn) :
  exists text, generate_reply self (messages_of transcript) = Return text.
Proof.
  unfold generate_reply, _format_messages_for_gemini.
  destruct (format_messages_of transcript
              ("System: " ++ system_message self ++ nl ++ nl)) as [p ->].
  simpl. unfold try_except. destruct (call_service _ _ _); eauto.
Qed.

(** C5: when the service raises [e], for whatever prompt, neither
    generate operation lets it through: [generate_content] and, once its
    prompt is built, [generate_reply] each return the text ["Error: "]
    followed by [str(e)], which is the message of [e], or the [repr] of
    the key when [e] is a [KeyError]. *)
Theorem service_failure_becomes_error_text :
  (forall (wrapper : GeminiWrapper) (prompt model : string) (temp : Q)
          (e : exception),
      call_service model temp prompt = Raise e ->
      generate_content wrapper prompt model temp
      = Return ("Error: " ++ match e with
                             | KeyError key => PyStr.repr key
                             | ValueError msg => msg
                             | Exception _ msg => msg
                             end)
      /\ ~ raises (generate_content wrapper prompt model temp))
  /\ (forall (self : GeminiAssistantAgent) (messages : list message)
             (formatted : string) (e : exception),
        _format_messages_for_gemini self messages = Return formatted ->
        call_service (agent_model self) (agent_temperature self) formatted
        = Raise e ->
        generate_reply self messages
        = Return ("Error: " ++ match e with
                               | KeyError key => PyStr.repr key
                               | ValueError msg => msg
                               | Exception _ msg => msg
                               end)
        /\ ~ raises (generate_reply self messages)).
Proof.
  split.
  - intros wrapper prompt model temp e Hcall.
    unfold generate_content. rewrite Hcall. simpl try_except.
    split; [by destruct e | by intros [e' He']].
  - intros self messages formatted e Hformat Hcall.
    unfold generate_reply. rewrite Hformat. simpl bind.
    rewrite Hcall. simpl try_except.
    split; [by destruct e | by intros [e' He']].
Qed.

End generation_facts.

Lemma service_failure_becomes_error_text_witness :
  @call_service picky_service "invalid-model" 0.7 "Test prompt"
  = Raise quota_error
  /\ (@generate_content picky_service test_wrapper
        "Test prompt" "invalid-model" 0.7
      = Return "Error: 429 quota exceeded"
      /\ ~ raises (@generate_content picky_service test_wrapper
                     "Test prompt" "invalid-model" 0.7))
  /\ _format_messages_for_gemini test_agent hello = Return hello_prompt
  /\ @call_service refusing_service (agent_model test_agent)
       (agent_temperature test_agent) hello_prompt
     = Raise quota_error
  /\ @generate_reply refusing_service test_agent hello
     = Return "Error: 429 quota exceeded"
  /\ ~ raises (@generate_reply refusing_service test_agent hello).
Proof.
  assert (@call_service picky_service "invalid-model" 0.7 "Test prompt"
          = Raise quota_error) as Hcall by reflexivity.
  assert (_format_messages_for_gemini test_agent hello = Return hello_prompt)
    as Hformat by (vm_compute; reflexivity).
  assert (@call_service refusing_service (agent_model test_agent)
            (agent_temperature test_agent) hello_prompt
          = Raise quota_error) as Hreply by reflexivity.
  split; [exact Hcall|].
  split; [exact (proj1 (@service_failure_becomes_error_text picky_service)
                   test_wrapper "Test prompt" "invalid-model" 0.7%Q
                   quota_error Hcall)|].
  split; [exact Hformat|]. split; [exact Hreply|].
  exact (proj2 (@service_failure_becomes_error_text refusing_service)
           test_agent hello hello_prompt quota_error Hformat Hreply).
Defined.

(** The service that fails on one prompt only answers the others. *)
Example picky_service_answers :
  @generate_content picky_service test_wrapper "Another prompt"
    "gemini-2.5-pro" 0.7
  = Return "Thank you for your answer."
  /\ @generate_reply picky_service test_agent hello
     = Return "Thank you for your answer.".
Proof. vm_compute. split; reflexivity. Qed.

(** The text of a [KeyError]: the key between apostrophes, or between
    double quotes when the key holds an apostrophe. *)
Example str_of_key_errors :
  str (KeyError "content") = "'content'"
  /\ str (KeyError "it's")
     = String PyStr.double_quote ("it's" ++ String PyStr.double_quote "")
  /\ @generate_content
       {| model_object := unit; response_object := unit;
          GenerativeModel := fun _ _ => Raise (KeyError "model_name");
          model_generate_content := fun _ _ => Return tt;
          response_text := fun _ => Return "" |}
       test_wrapper "Test prompt" "gemini-2.5-pro" 0.7
     = Return "Error: 'model_name'".
Proof. vm_compute. repeat split; reflexivity. Qed.

(** A message without the key ["content"] makes the prompt builder, which
    runs before the guarded call, raise. *)
Example generate_reply_missing_content :
  @generate_reply refusing_service test_agent [ {[ "role" := "user" ]} ]
  = Raise (KeyError "content").
Proof. vm_compute. reflexivity. Qed.

(** ** Construction of a role agent *)

Lemma truthy_opt_false (v : option string) :
  truthy_opt v = false <-> v = None \/ v = Some "".
Proof.
  destruct v as [[|c s]|]; simpl; split; intros Hv; eauto; try done.
  by destruct Hv.
Qed.

(** C7, on a concrete environment: the variable is set, to the empty
    string, which is not the placeholder; construction raises all the
    same. *)
Lemma empty_credential_rejected :
  raises (GeminiAssistantAgent_init empty_key_environ
            "TestAgent" "Test system message" "gemini-2.5-pro" 0.5)
  /\ ~ (empty_key_environ !! GOOGLE_API_KEY = None
        \/ empty_key_environ !! GOOGLE_API_KEY = Some placeholder_key).
Proof.
  split.
  - eexists. vm_compute. reflexivity.
  - unfold empty_key_environ. rewrite lookup_singleton_eq. by intros [|].
Qed.

(** C7, amended: construction raises exactly when [GOOGLE_API_KEY] is not
    in the environment, is empty, or is the placeholder; what it raises is
    the [ValueError], and it does so in [__init__], which makes no call to
    the generation service. *)
Theorem construction_raises_iff (environ : gmap string string)
    (name system_message model : string) (temp : Q) :
  (raises (GeminiAssistantAgent_init environ name system_message model temp)
   <-> environ !! GOOGLE_API_KEY = None
       \/ environ !! GOOGLE_API_KEY = Some ""
       \/ environ !! GOOGLE_API_KEY = Some placeholder_key)
  /\ (forall e,
        GeminiAssistantAgent_init environ name system_message model temp = Raise e ->
        e = ValueError missing_key_message).
Proof.
  unfold GeminiAssistantAgent_init.
  destruct (truthy_opt (environ !! GOOGLE_API_KEY)) eqn:Htruthy; simpl.
  - assert (~ (environ !! GOOGLE_API_KEY = None
               \/ environ !! GOOGLE_API_KEY = Some "")) as Hset.
    { rewrite <- truthy_opt_false. by rewrite Htruthy. }
    case_bool_decide as Hplaceholder.
    + split; [|by intros e [= <-]]. split; [eauto | intros _; by eexists].
    + split; [|done]. split; [by intros [e He] | ].
      intros [Hn|[He|Hp]]; [destruct Hset; eauto | destruct Hset; eauto | done].
  - apply truthy_opt_false in Htruthy.
    split; [|by intros e [= <-]].
    split; [intros _; destruct Htruthy; eauto | intros _; by eexists].
Qed.

Example construction_with_key :
  GeminiAssistantAgent_init {[ GOOGLE_API_KEY := "test_api_key" ]}
    "TestAgent" "Test system message" "gemini-2.5-pro" 0.5
  = Return test_agent.
Proof. vm_compute. reflexivity. Qed.

Example construction_with_placeholder :
  GeminiAssistantAgent_init {[ GOOGLE_API_KEY := placeholder_key ]}
    "TestAgent" "Test system message" "gemini-2.5-pro" 0.5
  = Raise (ValueError missing_key_message).
Proof. vm_compute. reflexivity. Qed.

(** ** Validation at session start *)

Section strip_facts.

Import PyStr.







End strip_facts.





Example no_job_description_errors :
  @handle_start refusing_service None no_job_description fresh_session
  = (fresh_session, [st_error "Job description is required"]).
Proof. vm_compute. reflexivity. Qed.

(** With valid inputs the handler does start the session. *)
Example good_start_appends :
  let '(st, shown) := @handle_start refusing_service None good_start fresh_session in
  length (chat_history st) = 3 /\ interview_started st = true
  /\ shown = [st_warning "No valid Gemini API key found. Using mock responses.";
              st_rerun].
Proof. vm_compute. repeat split; reflexivity. Qed.

(** ** The round ceiling *)

Section ceiling_facts.

Import Controller.

Variable nextSpeaker : option Role -> list Turn -> option Role.
Variable generate : Role -> list Turn -> string.

Lemma startSession_within seed : within_ceiling (startSession seed).
Proof. unfold within_ceiling, ceiling; simpl. lia. Qed.

Lemma round_within lastSpeaker s :
  within_ceiling s ->
  within_ceiling (snd (round nextSpeaker generate lastSpeaker s)).
Proof.
  intros [Hle Hlt]. unfold round.
  destruct (terminated s) eqn:Hterm.
  { cbn [snd]. split; [done | intros; congruence]. }
  specialize (Hlt eq_refl).
  destruct (nextSpeaker lastSpeaker (transcript s));
    unfold within_ceiling; cbn [snd roundCount terminated].
  - split; [lia|]. intros Hrun. apply Nat.leb_gt in Hrun. lia.
  - split; [lia | done].
Qed.

Lemma reachable_within st :
  reachable nextSpeaker generate st -> within_ceiling (snd st).
Proof.
  induction 1 as [seed|lastSpeaker s _ IH]; simpl.
  - apply startSession_within.
  - by apply round_within.
Qed.

Lemma round_progress lastSpeaker s :
  terminated s = false ->
  terminated (snd (round nextSpeaker generate lastSpeaker s)) = true
  \/ roundCount (snd (round nextSpeaker generate lastSpeaker s))
     = S (roundCount s).
Proof.
  intros Hrun. unfold round. rewrite Hrun.
  destruct (nextSpeaker lastSpeaker (transcript s));
    cbn [snd roundCount terminated]; eauto.
Qed.

Lemma loop_terminated fuel lastSpeaker s :
  terminated s = true ->
  loop nextSpeaker generate fuel lastSpeaker s = (lastSpeaker, s).
Proof. intros Hterm. destruct fuel; simpl; [done | by rewrite Hterm]. Qed.

Lemma loop_halts fuel lastSpeaker s :
  within_ceiling s ->
  terminated s = true \/ ceiling <= fuel + roundCount s ->
  terminated (snd (loop nextSpeaker generate fuel lastSpeaker s)) = true.
Proof.
  revert lastSpeaker s.
  induction fuel as [|fuel IH]; intros lastSpeaker s Hin Hfuel.
  - destruct Hfuel as [Hterm|Hfuel]; [by rewrite loop_terminated|].
    simpl in *. destruct (terminated s) eqn:Hterm; [done|].
    destruct Hin as [_ Hlt]. specialize (Hlt Hterm). lia.
  - simpl. destruct (terminated s) eqn:Hterm; [done|].
    pose proof (round_within lastSpeaker s Hin) as Hin'.
    pose proof (round_progress lastSpeaker s Hterm) as Hprogress.
    destruct (round nextSpeaker generate lastSpeaker s) as [lastSpeaker' s'].
    simpl in *. apply IH; [done|].
    destruct Hprogress as [?|Hcount]; [by left | right].
    destruct Hfuel as [?|Hfuel]; [congruence | lia].
Qed.

(** C4: whatever the arbiter answers, in every state a session reaches
    [roundCount] is at most 50, a session whose count has reached 50 is
    terminated, and from any such state the loop has halted after at
    most 50 rounds. *)
Theorem round_count_within_ceiling (st : option Role * SessionState) :
  reachable nextSpeaker generate st ->
  roundCount (snd st) <= 50
  /\ (roundCount (snd st) = 50 -> terminated (snd st) = true)
  /\ terminated (snd (loop nextSpeaker generate 50 (fst st) (snd st))) = true.
Proof.
  intros Hreach. pose proof (reachable_within st Hreach) as Hin.
  destruct Hin as [Hle Hlt]. change ceiling with 50 in Hle, Hlt.
  split; [done|]. split.
  - intros Hfull. destruct (terminated (snd st)); [done|].
    specialize (Hlt eq_refl). lia.
  - apply loop_halts; [by split|]. right. change ceiling with 50. lia.
Qed.

End ceiling_facts.

Lemma round_count_within_ceiling_witness :
  Controller.reachable Controller.source_arbiter failing_generate after_first_round
  /\ Controller.roundCount (snd after_first_round) <= 50
  /\ (Controller.roundCount (snd after_first_round) = 50 ->
      Controller.terminated (snd after_first_round) = true)
  /\ Controller.terminated
       (snd (Controller.loop Controller.source_arbiter failing_generate 50
               (fst after_first_round) (snd after_first_round))) = true.
Proof.
  assert (Controller.reachable Controller.source_arbiter failing_generate
            after_first_round)
    as Hreach by (apply Controller.reachable_round, Controller.reachable_start).
  split; [exact Hreach|].
  exact (round_count_within_ceiling Controller.source_arbiter failing_generate
           after_first_round Hreach).
Defined.

(** The same session run from its start: it stops at the ceiling, the
    Interviewer and the Candidate taking turns until then. *)
Example failing_session_stops_at_ceiling :
  let '(lastSpeaker, s) :=
    Controller.loop Controller.source_arbiter failing_generate 50 None
      (Controller.startSession seed_turn) in
  Controller.roundCount s = 50 /\ Controller.terminated s = true
  /\ length (Controller.transcript s) = 51.
Proof. vm_compute. repeat split; reflexivity. Qed.


(** * Further properties of the code *)

(** ** The arbiter on any group chat *)

Lemma custom_speaker_selection_missing last_speaker groupchat :
  last_message_text groupchat = None ->
  custom_speaker_selection last_speaker groupchat = Raise (KeyError "content").
Proof.
  unfold last_message_text, custom_speaker_selection, getitem.
  destruct (last (messages groupchat)) as [m|]; [|done].
  by intros ->.
Qed.

Lemma custom_speaker_selection_text last_speaker groupchat text :
  last_message_text groupchat = Some text ->
  custom_speaker_selection last_speaker groupchat =
  if is_None last_speaker || speaker_is last_speaker user_proxy_agent then
    if PyStr.str_in "resume" (PyStr.lower text)
       && PyStr.str_in "job description" (PyStr.lower text)
    then Return (Some resume_analyzer_agent)
    else Return (Some interviewer_agent)
  else if speaker_is last_speaker resume_analyzer_agent then
    Return (Some question_generator_agent)
  else if speaker_is last_speaker question_generator_agent then
    Return (Some interviewer_agent)
  else if speaker_is last_speaker interviewer_agent then
    Return (Some user_proxy_agent)
  else if speaker_is last_speaker evaluator_agent then
    Return None
  else Return (Some user_proxy_agent).
Proof.
  unfold last_message_text, custom_speaker_selection, getitem.
  destruct (last (messages groupchat)) as [m|].
  - intros ->. simpl. by destruct last_speaker as [[]|].
  - intros [= <-]. simpl. by destruct last_speaker as [[]|].
Qed.

Lemma last_message_text_None groupchat :
  last_message_text groupchat = None <->
  exists m, last (messages groupchat) = Some m /\ lacks_content m.
Proof.
  unfold last_message_text, lacks_content.
  destruct (last (messages groupchat)) as [m|]; split.
  - eauto.
  - by intros (m' & [= <-] & H).
  - done.
  - by intros (m' & H & _).
Qed.

(** On messages of texts the arbiter raises exactly when the chat has a
    last message and that message has no key ["content"]; what it raises
    is the [KeyError] of that key, whoever spoke last. *)
Lemma arbiter_raises_on_texts (last_speaker : option agent) (groupchat : GroupChat) :
  (raises (custom_speaker_selection last_speaker groupchat) <->
   exists m, last (messages groupchat) = Some m /\ lacks_content m)
  /\ (forall e, custom_speaker_selection last_speaker groupchat = Raise e ->
                e = KeyError "content").
Proof.
  rewrite <- last_message_text_None.
  destruct (last_message_text groupchat) as [text|] eqn:Htext.
  - rewrite (custom_speaker_selection_text _ _ _ Htext).
    assert (forall e, ~ (if is_None last_speaker
                            || speaker_is last_speaker user_proxy_agent
                         then
                           if PyStr.str_in "resume" (PyStr.lower text)
                              && PyStr.str_in "job description" (PyStr.lower text)
                           then Return (Some resume_analyzer_agent)
                           else Return (Some interviewer_agent)
                         else if speaker_is last_speaker resume_analyzer_agent
                         then Return (Some question_generator_agent)
                         else if speaker_is last_speaker question_generator_agent
                         then Return (Some interviewer_agent)
                         else if speaker_is last_speaker interviewer_agent
                         then Return (Some user_proxy_agent)
                         else if speaker_is last_speaker evaluator_agent
                         then Return None
                         else Return (Some user_proxy_agent)) = Raise e) as Hno.
    { intros e. repeat case_match; done. }
    split; [split; [intros [e He]; by destruct (Hno e) | done]|].
    intros e He. by destruct (Hno e).
  - rewrite (custom_speaker_selection_missing _ _ Htext).
    split; [split; [done | intros _; by eexists] | by intros e [= <-]].
Qed.

Lemma custom_speaker_selection_raw_texts (last_speaker : option agent)
    (groupchat : GroupChat) :
  custom_speaker_selection_raw last_speaker (raw_of <$> messages groupchat)
  = custom_speaker_selection last_speaker groupchat.
Proof.
  unfold custom_speaker_selection_raw, custom_speaker_selection, getitem.
  rewrite fmap_last.
  destruct (last (messages groupchat)) as [m|]; simpl.
  - unfold raw_of. rewrite lookup_fmap.
    destruct (m !! "content") as [text|]; simpl; [|done].
    destruct last_speaker as [[]|]; simpl; try done;
      by destruct (PyStr.str_in "resume" (PyStr.lower text)).
  - by destruct last_speaker as [[]|].
Qed.

(** With the messages as the group chat holds them, the content being a
    text or [None], the arbiter raises in exactly two cases: the last
    message has no key ["content"], and then it raises the [KeyError] of
    that key whoever spoke last; or its content is [None] while the
    conversation is at its start or the candidate spoke last, and then the
    call of [lower] raises an [AttributeError].  After any other speaker a
    content of [None] does no harm, and a chat without messages never
    raises.  On messages of texts this arbiter is the one above. *)
Theorem arbiter_raises_iff (last_speaker : option agent)
    (chat : list raw_message) :
  (raises (custom_speaker_selection_raw last_speaker chat) <->
   exists m, last chat = Some m
             /\ (m !! "content" = None
                 \/ m !! "content" = Some PyNone
                    /\ (last_speaker = None
                        \/ last_speaker = Some user_proxy_agent)))
  /\ (forall m, last chat = Some m -> m !! "content" = None ->
        custom_speaker_selection_raw last_speaker chat
        = Raise (KeyError "content"))
  /\ (forall m, last chat = Some m -> m !! "content" = Some PyNone ->
        last_speaker = None \/ last_speaker = Some user_proxy_agent ->
        custom_speaker_selection_raw last_speaker chat
        = Raise (AttributeError "'NoneType' object has no attribute 'lower'"))
  /\ (forall groupchat,
        custom_speaker_selection_raw last_speaker (raw_of <$> messages groupchat)
        = custom_speaker_selection last_speaker groupchat).
Proof.
  split; [|split; [|split]].
  - unfold custom_speaker_selection_raw.
    destruct (last chat) as [m|]; simpl.
    + destruct (m !! "content") as [[text|]|] eqn:Hcontent; simpl.
      * split.
        -- destruct last_speaker as [[]|]; simpl;
             try (by intros [e He]);
             destruct (PyStr.str_in "resume" (PyStr.lower text)); simpl;
             try destruct (PyStr.str_in "job description" (PyStr.lower text));
             by intros [e He].
        -- intros (m' & [= <-] & [?|[? _]]); congruence.
      * split.
        -- intros Hraises. exists m. split; [done|]. right. split; [done|].
           destruct last_speaker as [[]|]; simpl in Hraises; eauto;
             by destruct Hraises as [e He].
        -- intros (m' & [= <-] & [?|[_ [->| ->]]]);
             [congruence | by eexists | by eexists].
      * split; [intros _; exists m; eauto | intros _; by eexists].
    + split.
      * destruct last_speaker as [[]|]; by intros [e He].
      * by intros (m & ? & _).
  - intros m Hlast Hcontent. unfold custom_speaker_selection_raw.
    by rewrite Hlast, Hcontent.
  - intros m Hlast Hcontent Hspeaker. unfold custom_speaker_selection_raw.
    rewrite Hlast, Hcontent. by destruct Hspeaker as [->| ->].
  - apply custom_speaker_selection_raw_texts.
Qed.

(** The two failures and the harmless case on the message the chat
    library stores for a turn without text. *)
Example arbiter_on_contentless_message :
  custom_speaker_selection_raw None [contentless]
  = Raise (AttributeError "'NoneType' object has no attribute 'lower'")
  /\ custom_speaker_selection_raw (Some user_proxy_agent) [contentless]
     = Raise (AttributeError "'NoneType' object has no attribute 'lower'")
  /\ custom_speaker_selection_raw (Some interviewer_agent) [contentless]
     = Return (Some user_proxy_agent)
  /\ custom_speaker_selection_raw None [ {[ "role" := PyText "user" ]} ]
     = Raise (KeyError "content").
Proof. vm_compute. repeat split; reflexivity. Qed.

Lemma arbiter_end_speaker (last_speaker : option agent) (groupchat : GroupChat) :
  custom_speaker_selection last_speaker groupchat = Return None ->
  last_speaker = Some evaluator_agent.
Proof.
  destruct (last_message_text groupchat) as [text|] eqn:Htext.
  - rewrite (custom_speaker_selection_text _ _ _ Htext).
    destruct last_speaker as [[]|]; simpl; repeat case_match; done.
  - by rewrite (custom_speaker_selection_missing _ _ Htext).
Qed.

(** The arbiter ends the conversation, by returning [None], exactly when
    the last speaker is the [evaluator_agent] and the call does not
    raise. *)
Theorem arbiter_ends_iff (last_speaker : option agent) (groupchat : GroupChat) :
  custom_speaker_selection last_speaker groupchat = Return None <->
  last_speaker = Some evaluator_agent
  /\ ~ raises (custom_speaker_selection last_speaker groupchat).
Proof.
  split.
  - intros Hend. split; [by apply arbiter_end_speaker in Hend|].
    rewrite Hend. by intros [e He].
  - intros [-> Hno].
    destruct (last_message_text groupchat) as [text|] eqn:Htext.
    + by rewrite (custom_speaker_selection_text _ _ _ Htext).
    + destruct Hno. rewrite (custom_speaker_selection_missing _ _ Htext).
      by eexists.
Qed.

(** Whatever it is given, the arbiter chooses among four agents only: the
    candidate's proxy, the analyzer, the question generator and the
    interviewer.  It never chooses the [evaluator_agent] and never hands
    back a foreign object. *)
Theorem arbiter_range (last_speaker : option agent) (groupchat : GroupChat)
    (next : agent) :
  custom_speaker_selection last_speaker groupchat = Return (Some next) ->
  next = user_proxy_agent \/ next = resume_analyzer_agent
  \/ next = question_generator_agent \/ next = interviewer_agent.
Proof.
  destruct (last_message_text groupchat) as [text|] eqn:Htext.
  - rewrite (custom_speaker_selection_text _ _ _ Htext).
    repeat case_match; intros [= <-]; eauto.
  - by rewrite (custom_speaker_selection_missing _ _ Htext).
Qed.

Lemma arbiter_range_witness :
  custom_speaker_selection None (chat_with [seed_turn])
  = Return (Some resume_analyzer_agent)
  /\ (resume_analyzer_agent = user_proxy_agent
      \/ resume_analyzer_agent = resume_analyzer_agent
      \/ resume_analyzer_agent = question_generator_agent
      \/ resume_analyzer_agent = interviewer_agent).
Proof.
  assert (custom_speaker_selection None (chat_with [seed_turn])
          = Return (Some resume_analyzer_agent)) as Hcall
    by (vm_compute; reflexivity).
  split; [exact Hcall|].
  exact (arbiter_range None (chat_with [seed_turn]) resume_analyzer_agent Hcall).
Defined.

Lemma markers_in_last_message (groupchat : GroupChat) :
  (exists m text,
      last (messages groupchat) = Some m /\ m !! "content" = Some text
      /\ PyStr.occurs_ignoring_case "resume" text = true
      /\ PyStr.occurs_ignoring_case "job description" text = true)
  <-> exists text,
        last_message_text groupchat = Some text
        /\ PyStr.str_in "resume" (PyStr.lower text)
           && PyStr.str_in "job description" (PyStr.lower text) = true.
Proof.
  unfold last_message_text. split.
  - intros (m & text & -> & Hcontent & Hresume & Hjd).
    exists text. split; [done | by apply markers_found].
  - intros (text & Htext & Hmarkers).
    destruct (last (messages groupchat)) as [m|].
    + exists m, text. split; [done|]. split; [done|].
      rewrite !occurs_ignoring_case_lower.
      by apply andb_true_iff in Hmarkers.
    + injection Htext as <-. discriminate.
Qed.

(** The analyzer is chosen exactly when the conversation is at its start
    or the candidate spoke last, and the last message holds both markers in
    some letter case; a chat without messages never goes to the
    analyzer. *)
Theorem analyzer_chosen_iff (last_speaker : option agent) (groupchat : GroupChat) :
  custom_speaker_selection last_speaker groupchat
  = Return (Some resume_analyzer_agent) <->
  (last_speaker = None \/ last_speaker = Some user_proxy_agent)
  /\ exists m text,
       last (messages groupchat) = Some m /\ m !! "content" = Some text
       /\ PyStr.occurs_ignoring_case "resume" text = true
       /\ PyStr.occurs_ignoring_case "job description" text = true.
Proof.
  rewrite markers_in_last_message.
  destruct (last_message_text groupchat) as [text|] eqn:Htext.
  - rewrite (custom_speaker_selection_text _ _ _ Htext).
    destruct (PyStr.str_in "resume" (PyStr.lower text)
              && PyStr.str_in "job description" (PyStr.lower text)) eqn:Hm.
    + split.
      * intros Hcall. split; [|eauto].
        destruct last_speaker as [[]|]; simpl in Hcall; try done; eauto.
      * by intros [[->| ->] _].
    + split.
      * destruct last_speaker as [[]|]; simpl; done.
      * intros [_ (text' & [= <-] & Hmarkers)]. congruence.
  - rewrite (custom_speaker_selection_missing _ _ Htext).
    split; [done | by intros [_ (text' & [=] & _)]].
Qed.

Lemma arbiter_next_after_evaluator (last_speaker : option agent)
    (groupchat : GroupChat) (next : agent) :
  custom_speaker_selection last_speaker groupchat = Return (Some next) ->
  next <> evaluator_agent.
Proof.
  destruct (last_message_text groupchat) as [text|] eqn:Htext.
  - rewrite (custom_speaker_selection_text _ _ _ Htext).
    repeat case_match; by intros [= <-].
  - by rewrite (custom_speaker_selection_missing _ _ Htext).
Qed.

(** A conversation that starts without a last speaker and always hands
    the arbiter its own previous choice never sees the [evaluator_agent]
    as last speaker, so the arbiter never ends it: whatever the messages
    are, it does not return [None]. *)
Theorem conversation_never_ends (last_speaker : option agent) :
  selected_after_start last_speaker ->
  last_speaker <> Some evaluator_agent
  /\ forall groupchat,
       custom_speaker_selection last_speaker groupchat <> Return None.
Proof.
  intros Hsel.
  assert (last_speaker <> Some evaluator_agent) as Hnot.
  { destruct Hsel as [|previous groupchat next _ Hcall]; [done|].
    intros [= ->]. by apply (arbiter_next_after_evaluator _ _ _ Hcall). }
  split; [done|]. intros groupchat Hend.
  by apply arbiter_end_speaker in Hend.
Qed.

Lemma conversation_never_ends_witness :
  selected_after_start (Some resume_analyzer_agent)
  /\ Some resume_analyzer_agent <> Some evaluator_agent
  /\ forall groupchat,
       custom_speaker_selection (Some resume_analyzer_agent) groupchat
       <> Return None.
Proof.
  assert (selected_after_start (Some resume_analyzer_agent)) as Hsel.
  { apply (selected_next None (chat_with [seed_turn]));
      [apply selected_at_start | vm_compute; reflexivity]. }
  split; [exact Hsel|].
  exact (conversation_never_ends (Some resume_analyzer_agent) Hsel).
Defined.

(** ** The prompt of an agent *)

Lemma string_app_assoc (a b c : string) : (a ++ b) ++ c = a ++ b ++ c.
Proof.
  induction a as [|x a IH]; [done|].
  change (String x ((a ++ b) ++ c) = String x (a ++ b ++ c)). by rewrite IH.
Qed.

Lemma string_app_nil_r (a : string) : a ++ "" = a.
Proof.
  induction a as [|x a IH]; [done|].
  change (String x (a ++ "") = String x a). by rewrite IH.
Qed.

(** Building the prompt message by message composes: the messages of a
    longer history are formatted as those of its first part, followed, on
    the text reached so far, by those of the rest; a missing key in the
    first part stops the whole. *)
Theorem format_messages_app (formatted_prompt : string) (l1 l2 : list message) :
  format_messages formatted_prompt (l1 ++ l2)%list =
  let! reached := format_messages formatted_prompt l1 in
  format_messages reached l2.
Proof.
  revert formatted_prompt.
  induction l1 as [|m l1 IH]; intros formatted_prompt; simpl; [done|].
  destruct (getitem m "content") as [text|e]; simpl; [apply IH | done].
Qed.

Lemma format_messages_paragraphs (formatted_prompt : string)
    (messages : list message) (contents : list string) :
  Forall2 (fun m text => m !! "content" = Some text) messages contents ->
  format_messages formatted_prompt messages
  = Return (formatted_prompt
            ++ foldr String.append "" (zip_with message_paragraph messages contents)).
Proof.
  intros Hall. revert formatted_prompt.
  induction Hall as [|m text messages contents Hm _ IH];
    intros formatted_prompt; simpl.
  - by rewrite string_app_nil_r.
  - unfold getitem. rewrite Hm. simpl. rewrite IH. f_equal.
    unfold message_paragraph. by rewrite !string_app_assoc.
Qed.

(** When every message has a content, the prompt is the system message,
    then one paragraph per message in order, labelled [User] for the role
    ["user"] or no role, [Assistant] for ["assistant"] and the capitalised
    role otherwise, then the opening of the assistant's answer. *)
Theorem prompt_is_paragraphs (self : GeminiAssistantAgent)
    (messages : list message) (contents : list string) :
  Forall2 (fun m text => m !! "content" = Some text) messages contents ->
  _format_messages_for_gemini self messages
  = Return ("System: " ++ system_message self ++ nl ++ nl
            ++ foldr String.append "" (zip_with message_paragraph messages contents)
            ++ "Assistant: ").
Proof.
  intros Hall. unfold _format_messages_for_gemini.
  rewrite (format_messages_paragraphs _ _ _ Hall). simpl bind.
  f_equal. by rewrite !string_app_assoc.
Qed.

Lemma prompt_is_paragraphs_witness :
  Forall2 (fun (m : message) text => m !! "content" = Some text)
    [ chat_message "system" "Interview started"; {[ "content" := "Hello" ]} ]
    [ "Interview started"; "Hello" ]
  /\ _format_messages_for_gemini test_agent
       [ chat_message "system" "Interview started"; {[ "content" := "Hello" ]} ]
     = Return ("System: " ++ system_message test_agent ++ nl ++ nl
               ++ foldr String.append ""
                    (zip_with message_paragraph
                       [ chat_message "system" "Interview started";
                         {[ "content" := "Hello" ]} ]
                       [ "Interview started"; "Hello" ])
               ++ "Assistant: ").
Proof.
  assert (Forall2 (fun (m : message) text => m !! "content" = Some text)
            [ chat_message "system" "Interview started"; {[ "content" := "Hello" ]} ]
            [ "Interview started"; "Hello" ]) as Hall.
  { repeat constructor; vm_compute; reflexivity. }
  split; [exact Hall|].
  exact (prompt_is_paragraphs test_agent _ _ Hall).
Defined.

Example prompt_of_system_and_bare_message :
  _format_messages_for_gemini test_agent
    [ chat_message "system" "Interview started"; {[ "content" := "Hello" ]} ]
  = Return ("System: Test system message" ++ nl ++ nl
            ++ "System: Interview started" ++ nl ++ nl
            ++ "User: Hello" ++ nl ++ nl ++ "Assistant: ").
Proof. vm_compute. reflexivity. Qed.

Lemma format_messages_raises (formatted_prompt : string) (messages : list message) :
  (raises (format_messages formatted_prompt messages)
   <-> Exists lacks_content messages)
  /\ (forall e, format_messages formatted_prompt messages = Raise e ->
                e = KeyError "content").
Proof.
  revert formatted_prompt.
  induction messages as [|m messages IH]; intros formatted_prompt; simpl.
  - split; [|done]. split; [by intros [e He] | by intros H%Exists_nil].
  - unfold getitem. rewrite Exists_cons. unfold lacks_content at 1.
    destruct (m !! "content") as [text|]; simpl.
    + destruct (IH (formatted_prompt ++
                    (if String.eqb (get m "role" "user") "user" then "User"
                     else if String.eqb (get m "role" "user") "assistant"
                          then "Assistant"
                          else PyStr.capitalize (get m "role" "user"))
                    ++ ": " ++ text ++ nl ++ nl)) as [Hiff Herr].
      split; [|exact Herr]. rewrite Hiff. split; [eauto | by intros [|]].
    + split; [|by intros e [= <-]]. split; [eauto | intros _; by eexists].
Qed.

(** [generate_reply] raises exactly when some message of the history has
    no key ["content"], and then with the [KeyError] of that key: the
    prompt is built before the guarded call, whose own failures never get
    out. *)
Theorem generate_reply_raises_iff `{GenAI} (self : GeminiAssistantAgent)
    (messages : list message) :
  (raises (generate_reply self messages) <-> Exists lacks_content messages)
  /\ (forall e, generate_reply self messages = Raise e -> e = KeyError "content").
Proof.
  destruct (format_messages_raises
              ("System: " ++ system_message self ++ nl ++ nl) messages)
    as [Hiff Herr].
  unfold generate_reply, _format_messages_for_gemini.
  destruct (format_messages _ messages) as [prompt|e] eqn:Hformat; simpl.
  - unfold try_except.
    destruct (call_service _ _ _) as [text|e]; simpl;
      (split; [|done]); rewrite <- Hiff;
      (split; [by intros [e' He'] | by intros [e' He']]).
  - split; [|intros e' [= <-]; by apply Herr].
    rewrite <- Hiff. split; intros _; by eexists.
Qed.

(** ** The credential *)

(** The three places that test the credential agree: [main] finds the key
    configured exactly when a role agent can be constructed, and the
    module-level [gemini_wrapper] is missing exactly when construction
    raises; a wrapper that exists holds the key of the environment. *)
Theorem credential_checks_agree (environ : gmap string string)
    (name system_message model : string) (temp : Q) :
  (api_key_configured environ = true <->
   ~ raises (GeminiAssistantAgent_init environ name system_message model temp))
  /\ (module_gemini_wrapper environ = None <->
      raises (GeminiAssistantAgent_init environ name system_message model temp))
  /\ (forall wrapper,
        module_gemini_wrapper environ = Some wrapper ->
        environ !! GOOGLE_API_KEY = Some (api_key wrapper)).
Proof.
  unfold api_key_configured, module_gemini_wrapper, GeminiAssistantAgent_init.
  destruct (environ !! GOOGLE_API_KEY) as [key|]; simpl.
  - destruct (PyStr.truthy key); simpl.
    + case_bool_decide; simpl.
      * split; [split; [done | intros Hno; destruct Hno; by eexists]|].
        split; [split; [intros _; by eexists | done] | done].
      * split; [split; [intros _; by intros [e He] | done]|].
        split; [split; [done | by intros [e He]]|].
        unfold GeminiWrapper_init. by intros wrapper [= <-].
    + split; [split; [done | intros Hno; destruct Hno; by eexists]|].
      split; [split; [intros _; by eexists | done] | done].
  - split; [split; [done | intros Hno; destruct Hno; by eexists]|].
    split; [split; [intros _; by eexists | done] | done].
Qed.

(** A constructed agent carries what it was given and, in its
    [llm_config], the key of the environment, which is then neither empty
    nor the placeholder: the default ["dummy_key"] never stays in a
    constructed agent. *)
Theorem constructed_agent_fields (environ : gmap string string)
    (given_name given_message given_model : string) (temp : Q)
    (self : GeminiAssistantAgent) :
  GeminiAssistantAgent_init environ given_name given_message given_model temp
  = Return self ->
  exists key,
    environ !! GOOGLE_API_KEY = Some key
    /\ key <> "" /\ key <> placeholder_key
    /\ config_list (llm_config self)
       = [ {| entry_model := given_model; entry_api_key := key;
              entry_api_type := "openai" |} ]
    /\ name self = given_name /\ system_message self = given_message
    /\ agent_model self = given_model /\ agent_temperature self = temp.
Proof.
  unfold GeminiAssistantAgent_init, get.
  destruct (environ !! GOOGLE_API_KEY) as [key|]; simpl; [|done].
  destruct key as [|c key]; simpl; [done|].
  case_bool_decide as Hplaceholder; [done|].
  intros [= <-]. exists (String c key). simpl.
  repeat split; try done. intros Heq. apply Hplaceholder. by rewrite Heq.
Qed.

Lemma constructed_agent_fields_witness :
  GeminiAssistantAgent_init test_environ
    "TestAgent" "Test system message" "gemini-2.5-pro" 0.5
  = Return test_agent
  /\ exists key,
       test_environ !! GOOGLE_API_KEY = Some key
       /\ key <> "" /\ key <> placeholder_key
       /\ config_list (llm_config test_agent)
          = [ {| entry_model := "gemini-2.5-pro"; entry_api_key := key;
                 entry_api_type := "openai" |} ]
       /\ name test_agent = "TestAgent"
       /\ system_message test_agent = "Test system message"
       /\ agent_model test_agent = "gemini-2.5-pro"
       /\ agent_temperature test_agent = 0.5%Q.
Proof.
  assert (GeminiAssistantAgent_init test_environ
            "TestAgent" "Test system message" "gemini-2.5-pro" 0.5
          = Return test_agent) as Hinit by (vm_compute; reflexivity).
  split; [exact Hinit|].
  exact (constructed_agent_fields test_environ _ _ _ _ test_agent Hinit).
Defined.

(** ** The handlers of [main] *)

Lemma strip_empty : PyStr.strip "" = [].
Proof. reflexivity. Qed.

Lemma validate_candidate_name_ok (candidate_name : string) :
  validate_candidate_name candidate_name = [] <->
  2 <= length (PyStr.strip candidate_name).
Proof.
  unfold validate_candidate_name.
  destruct candidate_name as [|c s]; simpl negb; simpl orb.
  - rewrite strip_empty. simpl. split; [done | lia].
  - destruct (PyStr.strip (String c s)) as [|d r] eqn:Hstrip;
      simpl negb; simpl orb.
    + simpl. split; [done | lia].
    + destruct (Nat.ltb_spec (length (d :: r)) 2); split; (done || lia).
Qed.

Lemma validate_job_description_ok (job_description : string) :
  validate_job_description job_description = [] <->
  50 <= length (PyStr.strip job_description).
Proof.
  unfold validate_job_description.
  destruct job_description as [|c s]; simpl negb; simpl orb.
  - rewrite strip_empty. simpl. split; [done | lia].
  - destruct (PyStr.strip (String c s)) as [|d r] eqn:Hstrip;
      simpl negb; simpl orb.
    + simpl. split; [done | lia].
    + destruct (Nat.ltb_spec (length (d :: r)) 50); split; (done || lia).
Qed.

Lemma validate_resume_file_ok (resume_file : option UploadedFile) :
  validate_resume_file resume_file = [] <->
  exists f, resume_file = Some f /\ (size f <= 10 * 1024 * 1024)%N.
Proof.
  unfold validate_resume_file. destruct resume_file as [f|].
  - destruct (N.ltb_spec (10 * 1024 * 1024) (size f)); split.
    + done.
    + intros (f' & [= <-] & Hle). lia.
    + intros _. exists f. split; [done | lia].
    + done.
  - split; [done | by intros (f & Hf & _)].
Qed.

(** The inputs pass validation exactly when the candidate name has at
    least 2 characters and the job description at least 50, both counted
    in characters after [strip()] has removed the blanks at the ends, and a
    resume of at most 10 MiB was uploaded. *)
Theorem validation_passes_iff (w : Widgets) :
  validation_errors w = [] <->
  2 <= length (PyStr.strip (candidate_name w))
  /\ (exists f, resume_file w = Some f /\ (size f <= 10 * 1024 * 1024)%N)
  /\ 50 <= length (PyStr.strip (job_description w)).
Proof.
  unfold validation_errors.
  rewrite <- validate_candidate_name_ok, <- validate_resume_file_ok,
    <- validate_job_description_ok.
  split.
  - intros Hnil. apply app_eq_nil in Hnil as [Hname Hnil].
    by apply app_eq_nil in Hnil as [Hfile Hjd].
  - by intros (-> & -> & ->).
Qed.

(** Lengths are counted in characters: a one-letter name with an accent
    and a job description of thirty such letters are both too short,
    though each takes more bytes. *)
Example accented_inputs_rejected :
  validation_errors
    {| candidate_name := "é"; resume_file := Some {| size := 2048 |};
       job_description := "éééééééééééééééééééééééééééééé";
       voice_mode := false; start_button := true |}
  = [ "Candidate name must be at least 2 characters long";
      "Job description must be at least 50 characters long" ].
Proof. vm_compute. reflexivity. Qed.

(** Blanks beyond ASCII are stripped too: a name made of no-break spaces
    is no name. *)
Example no_break_spaces_rejected :
  validate_candidate_name "  " = ["Candidate name is required"].
Proof. vm_compute. reflexivity. Qed.

Example blank_name_rejected :
  validation_errors
    {| candidate_name := "   "; resume_file := Some {| size := 2048 |};
       job_description := job_description good_start;
       voice_mode := false; start_button := true |}
  = ["Candidate name is required"].
Proof. vm_compute. reflexivity. Qed.

(** With inputs that pass validation, pressing "Start Interview" on a
    session that has not started always starts it.  With a wrapper the two
    assistant messages are "Resume Analysis:" and "Interview Questions:",
    each followed by a blank line and by what [generate_content] returned
    for the analysis prompt and, on that analysis, for the questions
    prompt, and the run only asks for a rerun; this holds also when the
    service fails, the returned text then being the error text.  Without a
    wrapper the two messages are the mock analysis and the mock questions,
    after a warning. *)
Theorem valid_start_begins `{GenAI} (gemini_wrapper : option GeminiWrapper)
    (w : Widgets) (st : session_state) :
  start_button w = true ->
  interview_started st = false ->
  validation_errors w = [] ->
  match gemini_wrapper with
  | Some wrapper =>
      exists analysis questions,
        generate_content wrapper
          (analysis_prompt ("Sample resume text for " ++ candidate_name w)
             (job_description w)) "gemini-2.5-pro" 0.2
        = Return analysis
        /\ generate_content wrapper (questions_prompt analysis)
             "gemini-2.5-pro" 0.7
           = Return questions
        /\ handle_start gemini_wrapper w st
           = (started_with w ("Resume Analysis:" ++ nl ++ nl ++ analysis)
                ("Interview Questions:" ++ nl ++ nl ++ questions) st,
              [st_rerun])
  | None =>
      handle_start gemini_wrapper w st
      = (started_with w mock_analysis mock_questions st,
         [ st_warning "No valid Gemini API key found. Using mock responses.";
           st_rerun ])
  end.
Proof.
  intros Hbutton Hfresh Hvalid.
  unfold handle_start. rewrite Hbutton, Hfresh, Hvalid. simpl andb. cbv iota.
  unfold run_analysis, started_with. destruct gemini_wrapper as [wrapper|].
  - destruct (generate_content_returns wrapper
                (analysis_prompt ("Sample resume text for " ++ candidate_name w)
                   (job_description w)) "gemini-2.5-pro" 0.2)
      as [analysis Hanalysis].
    destruct (generate_content_returns wrapper (questions_prompt analysis)
                "gemini-2.5-pro" 0.7) as [questions Hquestions].
    exists analysis, questions. split; [done|]. split; [done|].
    rewrite Hanalysis, Hquestions.
    unfold append_message, set_started. simpl.
    by rewrite <- !app_assoc.
  - unfold append_message, set_started. simpl.
    by rewrite <- !app_assoc.
Qed.

Lemma valid_start_begins_witness :
  start_button good_start = true
  /\ interview_started fresh_session = false
  /\ validation_errors good_start = []
  /\ exists analysis questions,
       @generate_content refusing_service test_wrapper
         (analysis_prompt ("Sample resume text for " ++ candidate_name good_start)
            (job_description good_start)) "gemini-2.5-pro" 0.2
       = Return analysis
       /\ @generate_content refusing_service test_wrapper
            (questions_prompt analysis) "gemini-2.5-pro" 0.7
          = Return questions
       /\ @handle_start refusing_service (Some test_wrapper) good_start
            fresh_session
          = (started_with good_start
               ("Resume Analysis:" ++ nl ++ nl ++ analysis)
               ("Interview Questions:" ++ nl ++ nl ++ questions) fresh_session,
             [st_rerun]).
Proof.
  assert (validation_errors good_start = []) as Hvalid
    by (vm_compute; reflexivity).
  split; [reflexivity|]. split; [reflexivity|]. split; [exact Hvalid|].
  exact (@valid_start_begins refusing_service (Some test_wrapper) good_start
           fresh_session eq_refl eq_refl Hvalid).
Defined.

(** The same start with a service that refuses every request: the
    session starts all the same, on the two error texts. *)
Example start_with_refusing_service :
  @handle_start refusing_service (Some test_wrapper) good_start fresh_session
  = (started_with good_start
       ("Resume Analysis:" ++ nl ++ nl ++ "Error: 429 quota exceeded")
       ("Interview Questions:" ++ nl ++ nl ++ "Error: 429 quota exceeded")
       fresh_session,
     [st_rerun]).
Proof. vm_compute. reflexivity. Qed.

Lemma random_choice_mock (drawn : nat) :
  In (random_choice drawn mock_responses) mock_responses.
Proof.
  unfold random_choice. apply nth_In.
  apply Nat.mod_upper_bound. simpl. lia.
Qed.

(** A non-empty chat input in a started session, voice mode off, always
    adds exactly the user's message and one reply to the history and asks
    for a rerun; the reply is what [generate_content] returned or, without
    a wrapper, one of the mock responses. *)
Theorem chat_input_exchange `{GenAI} (gemini_wrapper : option GeminiWrapper)
    (drawn : nat) (text : string) (st : session_state) :
  interview_started st = true ->
  text <> "" ->
  exists reply,
    handle_chat_input gemini_wrapper drawn false (Some text) st
    = ({| chat_history :=
            (chat_history st
             ++ [ chat_message "user" text; chat_message "assistant" reply ])%list;
          interview_started := true |},
       [ui st_rerun])
    /\ match gemini_wrapper with
       | Some wrapper =>
           generate_content wrapper (response_prompt text) "gemini-2.5-pro" 0.5
           = Return reply
       | None => In reply mock_responses
       end.
Proof.
  intros Hstarted Htext. unfold handle_chat_input. rewrite Hstarted.
  destruct text as [|c text]; [done|]. simpl.
  destruct gemini_wrapper as [wrapper|].
  - destruct (generate_content_returns wrapper
                (response_prompt (String c text)) "gemini-2.5-pro" 0.5)
      as [reply Hreply].
    rewrite Hreply. exists reply. split; [|done].
    unfold append_message. simpl. rewrite Hstarted. by rewrite <- app_assoc.
  - exists (random_choice drawn mock_responses).
    split; [|apply random_choice_mock].
    unfold append_message. simpl. rewrite Hstarted. by rewrite <- app_assoc.
Qed.

Lemma chat_input_exchange_witness :
  interview_started running_session = true
  /\ "I led the migration." <> ""
  /\ exists reply,
       @handle_chat_input refusing_service (Some test_wrapper) 3 false
         (Some "I led the migration.") running_session
       = ({| chat_history :=
               (chat_history running_session
                ++ [ chat_message "user" "I led the migration.";
                     chat_message "assistant" reply ])%list;
             interview_started := true |},
          [ui st_rerun])
       /\ @generate_content refusing_service test_wrapper
            (response_prompt "I led the migration.") "gemini-2.5-pro" 0.5
          = Return reply.
Proof.
  assert ("I led the migration." <> "") as Htext by discriminate.
  split; [reflexivity|]. split; [exact Htext|].
  exact (@chat_input_exchange refusing_service (Some test_wrapper) 3
           "I led the migration." running_session eq_refl Htext).
Defined.

Example chat_input_with_refusing_service :
  chat_history
    (fst (@handle_chat_input refusing_service (Some test_wrapper) 3 false
            (Some "I led the migration.") running_session))
  = (chat_history running_session
     ++ [ chat_message "user" "I led the migration.";
          chat_message "assistant" "Error: 429 quota exceeded" ])%list.
Proof. vm_compute. reflexivity. Qed.

(** ** The voice module *)

Section voice_facts.

Import Voice.
Context `{SpeechLib}.

(** After [stop_listening] the module is not recording, whatever
    happened: the stopper raised, nothing was heard, the recogniser
    failed, or there was no recording to stop. *)
Theorem stop_listening_ends_recording (vs : module_state) :
  _recording (fst (stop_listening vs)) = false.
Proof.
  unfold stop_listening.
  destruct (_recording vs) eqn:Hrec; simpl; [|done].
  destruct (match _stop_listening vs with
            | Some stop => call_stopper stop
            | None => Return tt
            end) as [stopped|e]; simpl; [|done].
  destruct (_audio_data vs) as [a|]; [|done].
  destruct (recognize_google a) as [text|e']; [done|].
  destruct (is_instance "UnknownValueError" e'); [done|].
  by destruct (is_instance "RequestError" e').
Qed.

(** [start_listening] answers [True] only from a state that was not
    recording, and then the module records, holds a stopper and has
    dropped any earlier audio; a module that is already recording is left
    as it is; in every case the module records afterwards exactly when it
    did before or the answer is [True]. *)
Theorem start_listening_flag (vs : module_state) :
  _recording (fst (start_listening vs))
  = _recording vs || snd (start_listening vs)
  /\ (_recording vs = true -> start_listening vs = (vs, false))
  /\ (snd (start_listening vs) = true ->
      _recording vs = false
      /\ _audio_data (fst (start_listening vs)) = None
      /\ is_Some (_stop_listening (fst (start_listening vs)))).
Proof.
  unfold start_listening.
  destruct (_recording vs) eqn:Hrec; simpl.
  - by rewrite Hrec.
  - destruct (let! source := Microphone in
              let! _ := with_source source
                          (fun s => adjust_for_ambient_noise s 0.5) in
              listen_in_background source) as [stop|e]; simpl.
    + repeat split; (done || eauto).
    + repeat split; (done || by rewrite ?Hrec).
Qed.

(** While recording, [stop_listening] answers either with the text the
    recogniser returned for the recorded audio or with a text that starts
    with "Sorry"; when not recording it answers "Not currently recording."
    and changes nothing. *)
Theorem stop_listening_outcome (vs : module_state) :
  if _recording vs
  then (exists a, _audio_data vs = Some a
                  /\ recognize_google a = Return (snd (stop_listening vs)))
       \/ PyStr.startswith "Sorry" (snd (stop_listening vs)) = true
  else stop_listening vs = (vs, "Not currently recording.").
Proof.
  unfold stop_listening.
  destruct (_recording vs) eqn:Hrec; cbn [negb]; cbv iota; [|done].
  destruct (match _stop_listening vs with
            | Some stop => call_stopper stop
            | None => Return tt
            end) as [stopped|e]; [|right; reflexivity].
  cbv zeta. cbn [_audio_data].
  destruct (_audio_data vs) as [a|]; [|right; reflexivity].
  destruct (recognize_google a) as [text|e] eqn:Hrecognize.
  - left. exists a. split; [reflexivity | exact Hrecognize].
  - right. destruct (is_instance "UnknownValueError" e); [reflexivity|].
    destruct (is_instance "RequestError" e); reflexivity.
Qed.

(** [listen_to_user] never raises: it returns the text the recogniser
    returned for some audio, or a text that starts with "Sorry". *)
Theorem listen_to_user_outcome (timeout phrase_time_limit : option nat) :
  exists text,
    listen_to_user timeout phrase_time_limit = Return text
    /\ ((exists a, recognize_google a = Return text)
        \/ PyStr.startswith "Sorry" text = true).
Proof.
  unfold listen_to_user, try_except.
  destruct (let! source := Microphone in
            with_source source
              (fun source =>
                 let! _ := adjust_for_ambient_noise source 0.5 in
                 let! a := listen source timeout phrase_time_limit in
                 recognize_google a)) as [text|e] eqn:Hbody.
  - exists text. split; [done|]. left.
    unfold with_source in Hbody.
    destruct Microphone as [source|]; simpl in Hbody; [|done].
    destruct (mic_enter source) as [s|]; simpl in Hbody; [|done].
    destruct (adjust_for_ambient_noise s 0.5) as [adjusted|]; simpl in Hbody.
    + destruct (listen s timeout phrase_time_limit) as [a|]; simpl in Hbody.
      * destruct (recognize_google a) as [heard|] eqn:Hheard.
        -- destruct (mic_exit source); simpl in Hbody; [|done].
           injection Hbody as <-. eauto.
        -- by destruct (mic_exit source).
      * by destruct (mic_exit source).
    + by destruct (mic_exit source).
  - destruct (is_instance "WaitTimeoutError" e);
      [eexists; split; [reflexivity | right; reflexivity]|].
    destruct (is_instance "UnknownValueError" e);
      [eexists; split; [reflexivity | right; reflexivity]|].
    destruct (is_instance "RequestError" e);
      eexists; (split; [reflexivity | right; reflexivity]).
Qed.

(** A successful [start_listening] followed, with a stopper that works,
    by [stop_listening]: when nothing was recorded in between the answer
    is that nothing was heard, also when audio of an earlier recording was
    still stored; when the callback delivered audio the answer is the text
    the recogniser returns for it. *)
Theorem start_then_stop (vs vs1 : module_state) :
  start_listening vs = (vs1, true) ->
  (forall stop, _stop_listening vs1 = Some stop -> call_stopper stop = Return tt) ->
  snd (stop_listening vs1) = "Sorry, I didn't hear anything. Please try again."
  /\ forall a text,
       recognize_google a = Return text ->
       stop_listening (audio_callback a vs1)
       = ({| _recording := false; _audio_data := Some a;
             _stop_listening := None |}, text).
Proof.
  intros Hstart Hstop.
  assert (_recording vs1 = true /\ _audio_data vs1 = None) as [Hrec Haudio].
  { unfold start_listening in Hstart.
    destruct (_recording vs); [done|].
    destruct (let! source := Microphone in
              let! _ := with_source source
                          (fun s => adjust_for_ambient_noise s 0.5) in
              listen_in_background source); [|done].
    by injection Hstart as <-. }
  assert (match _stop_listening vs1 with
          | Some stop => call_stopper stop
          | None => Return tt
          end = Return tt) as Hcall.
  { destruct (_stop_listening vs1) as [stop|]; [by apply Hstop | done]. }
  split.
  - unfold stop_listening. rewrite Hrec, Hcall. simpl. by rewrite Haudio.
  - intros a text Hheard. unfold stop_listening, audio_callback. simpl.
    rewrite Hrec, Hcall. simpl. by rewrite Hheard.
Qed.

End voice_facts.

(** The guard around [speak_to_user] in [main] never fires: the function
    swallows every failure of the speech engine itself, so no
    text-to-speech warning is ever shown. *)
Theorem tts_warning_never_shown `{Voice.SpeechLib} (response_text : string) :
  Voice.speak_to_user response_text = Return tt
  /\ speak_reply response_text = [].
Proof.
  assert (Voice.speak_to_user response_text = Return tt) as Hspeak.
  { unfold Voice.speak_to_user, try_except.
    destruct Voice.pyttsx3_init as [engine|]; simpl; [|done].
    destruct (Voice.say engine response_text) as [said|]; simpl; [|done].
    by destruct (Voice.runAndWait engine) as [[]|]. }
  split; [done|]. unfold speak_reply. by rewrite Hspeak.
Qed.

Lemma start_then_stop_witness :
  @Voice.start_listening working_speech stale_audio
  = (@Voice.Build_module_state working_speech true None (Some tt), true)
  /\ (forall stop,
        Voice._stop_listening
          (@Voice.Build_module_state working_speech true None (Some tt))
        = Some stop ->
        @Voice.call_stopper working_speech stop = Return tt)
  /\ snd (Voice.stop_listening
            (@Voice.Build_module_state working_speech true None (Some tt)))
     = "Sorry, I didn't hear anything. Please try again."
  /\ forall a text,
       @Voice.recognize_google working_speech a = Return text ->
       Voice.stop_listening
         (Voice.audio_callback a
            (@Voice.Build_module_state working_speech true None (Some tt)))
       = (@Voice.Build_module_state working_speech false (Some a) None, text).
Proof.
  assert (forall stop,
            Voice._stop_listening
              (@Voice.Build_module_state working_speech true None (Some tt))
            = Some stop ->
            @Voice.call_stopper working_speech stop = Return tt) as Hstop
    by reflexivity.
  split; [reflexivity|]. split; [exact Hstop|].
  exact (@start_then_stop working_speech stale_audio
           (@Voice.Build_module_state working_speech true None (Some tt))
           eq_refl Hstop).
Defined.

(** The generic failure of the integration test: an [Exception] whose
    text is "UnknownValueError". *)
Example listen_to_user_generic_failure :
  @Voice.listen_to_user
    {| Voice.microphone := unit; Voice.audio := unit; Voice.stopper := unit;
       Voice.engine := unit;
       Voice.Microphone := Return tt;
       Voice.mic_enter := fun _ => Return tt;
       Voice.mic_exit := fun _ => Return tt;
       Voice.adjust_for_ambient_noise := fun _ _ => Return tt;
       Voice.listen := fun _ _ _ => Return tt;
       Voice.listen_in_background := fun _ => Return tt;
       Voice.call_stopper := fun _ => Return tt;
       Voice.recognize_google :=
         fun _ => Raise (Exception "Exception" "UnknownValueError");
       Voice.pyttsx3_init := Return tt;
       Voice.say := fun _ _ => Return tt;
       Voice.runAndWait := fun _ => Return tt |}
    (Some 5) None
  = Return "Sorry, an error occurred: UnknownValueError".
Proof. vm_compute. reflexivity. Qed.

(** ** Voice answers and the history *)

(** Stopping a recording in a started session with voice mode on: what
    [stop_listening] answered enters the history, followed by one reply,
    exactly when it is not empty and does not start with "Sorry";
    otherwise the session state stays as it was and the answer is shown as
    an error.  So no failure text of the voice module gets into the
    history, and neither does a recognised sentence that begins with
    "Sorry". *)
Theorem voice_answer_recorded_iff `{GenAI} `{Voice.SpeechLib}
    (gemini_wrapper : option GeminiWrapper) (drawn : nat)
    (st : session_state) (vs : Voice.module_state) :
  interview_started st = true ->
  Voice._recording vs = true ->
  if PyStr.truthy (snd (Voice.stop_listening vs))
     && negb (PyStr.startswith "Sorry" (snd (Voice.stop_listening vs)))
  then exists reply,
         chat_history
           (fst (fst (handle_voice gemini_wrapper drawn true true st vs)))
         = (chat_history st
            ++ [ chat_message "user" (snd (Voice.stop_listening vs));
                 chat_message "assistant" reply ])%list
  else fst (fst (handle_voice gemini_wrapper drawn true true st vs)) = st
       /\ snd (handle_voice gemini_wrapper drawn true true st vs)
          = [ st_info "Voice mode is enabled. Click the button to start speaking, then click again to stop.";
              ui (st_error (snd (Voice.stop_listening vs)));
              ui st_rerun ].
Proof.
  intros Hstarted Hrec. unfold handle_voice, Voice.is_recording.
  rewrite Hstarted, Hrec. cbn [andb]. cbv iota.
  destruct (Voice.stop_listening vs) as [vs' heard]. cbn [snd].
  destruct (PyStr.truthy heard && negb (PyStr.startswith "Sorry" heard));
    [|by split].
  destruct gemini_wrapper as [wrapper|].
  - destruct (generate_content_returns wrapper (voice_response_prompt heard)
                "gemini-2.5-pro" 0.5) as [reply ->].
    exists reply. unfold append_message. cbn [fst chat_history].
    by rewrite <- app_assoc.
  - exists (random_choice drawn mock_responses).
    unfold append_message. cbn [fst chat_history].
    by rewrite <- app_assoc.
Qed.

Lemma voice_answer_recorded_iff_witness :
  interview_started running_session = true
  /\ Voice._recording recording_apology = true
  /\ fst (fst (@handle_voice refusing_service working_speech
                 (Some test_wrapper) 0 true true running_session
                 recording_apology))
     = running_session
  /\ snd (@handle_voice refusing_service working_speech
            (Some test_wrapper) 0 true true running_session recording_apology)
     = [ st_info "Voice mode is enabled. Click the button to start speaking, then click again to stop.";
         ui (st_error "Sorry, could you repeat the question?");
         ui st_rerun ].
Proof.
  split; [reflexivity|]. split; [reflexivity|].
  exact (@voice_answer_recorded_iff refusing_service working_speech
           (Some test_wrapper) 0 running_session recording_apology
           eq_refl eq_refl).
Defined.

Example nothing_heard_not_recorded :
  @handle_voice refusing_service working_speech (Some test_wrapper) 0 true true
    running_session recording_silence
  = (running_session,
     @Voice.Build_module_state working_speech false None None,
     [ st_info "Voice mode is enabled. Click the button to start speaking, then click again to stop.";
       ui (st_error "Sorry, I didn't hear anything. Please try again.");
       ui st_rerun ]).
Proof. vm_compute. reflexivity. Qed.

(** ** The history only grows *)

Lemma append_message_history (m : message) (st : session_state) :
  chat_history (append_message m st) = (chat_history st ++ [m])%list.
Proof. reflexivity. Qed.

Lemma run_analysis_history `{GenAI} (gemini_wrapper : option GeminiWrapper)
    (resume_text job_description : string) (st : session_state) :
  chat_history st
  `prefix_of` chat_history
                (fst (fst (run_analysis gemini_wrapper resume_text
                             job_description st))).
Proof.
  unfold run_analysis. destruct gemini_wrapper as [wrapper|].
  - destruct (generate_content wrapper _ _ _) as [analysis|e]; [|done].
    destruct (generate_content wrapper _ _ _) as [questions|e]; cbn [fst].
    + rewrite !append_message_history. apply prefix_app_r, prefix_app_r.
      done.
    + rewrite append_message_history. by apply prefix_app_r.
  - cbn [fst]. rewrite !append_message_history.
    apply prefix_app_r, prefix_app_r. done.
Qed.

(** The start handler, the chat-input handler and the voice handler never
    remove or change a message of the history: the history before a run is
    a prefix of the history after it.  Only the reset button empties
    it. *)
Theorem handlers_append_only `{GenAI} `{Voice.SpeechLib}
    (gemini_wrapper : option GeminiWrapper) (drawn : nat)
    (w : Widgets) (user_input : option string)
    (voice_mode speak_button : bool)
    (st : session_state) (vs : Voice.module_state) :
  chat_history st
  `prefix_of` chat_history (fst (handle_start gemini_wrapper w st))
  /\ chat_history st
     `prefix_of` chat_history
                   (fst (handle_chat_input gemini_wrapper drawn voice_mode
                           user_input st))
  /\ chat_history st
     `prefix_of` chat_history
                   (fst (fst (handle_voice gemini_wrapper drawn voice_mode
                                speak_button st vs))).
Proof.
  split; [|split].
  - unfold handle_start.
    destruct (start_button w && negb (interview_started st)); [|done].
    destruct (validation_errors w); [|done].
    pose proof (run_analysis_history gemini_wrapper
                  ("Sample resume text for " ++ candidate_name w)
                  (job_description w)
                  (set_started true
                     (append_message
                        (chat_message "system"
                           ("Interview started for candidate: "
                            ++ candidate_name w)) st))) as Hrun.
    destruct (run_analysis _ _ _ _) as [[st' shown] [done_|e]];
      cbn [fst set_started chat_history] in *;
      (etrans; [|exact Hrun]); by apply prefix_app_r.
  - unfold handle_chat_input.
    destruct (interview_started st && negb voice_mode).
    + destruct (truthy_opt user_input); [|done].
      destruct gemini_wrapper as [wrapper|].
      * destruct (generate_content wrapper _ _ _) as [response|e]; cbn [fst];
          rewrite ?append_message_history;
          repeat apply prefix_app_r; done.
      * cbn [fst]. rewrite !append_message_history.
        repeat apply prefix_app_r. done.
    + by destruct (interview_started st && voice_mode).
  - unfold handle_voice.
    destruct (voice_mode && interview_started st); [|done].
    destruct speak_button; [|done].
    destruct (Voice.is_recording vs).
    + destruct (Voice.stop_listening vs) as [vs' heard].
      destruct (PyStr.truthy heard && negb (PyStr.startswith "Sorry" heard));
        [|done].
      destruct gemini_wrapper as [wrapper|].
      * destruct (generate_content wrapper _ _ _) as [response|e]; cbn [fst];
          rewrite ?append_message_history;
          repeat apply prefix_app_r; done.
      * cbn [fst]. rewrite !append_message_history.
        repeat apply prefix_app_r. done.
    + destruct (Voice.start_listening vs) as [vs' success].
      by destruct success.
Qed.

Example reset_empties_history :
  handle_reset true running_session
  = ({| chat_history := []; interview_started := false |}, [ui st_rerun]).
Proof. reflexivity. Qed.

(** ** The summary of the test runner *)

Section tally_facts.

Import RunTests.

Lemma fold_count (test_results : list (string * option bool)) (t : tally) :
  passed (fold_left count test_results t)
  + failed (fold_left count test_results t)
  + skipped (fold_left count test_results t)
  = passed t + failed t + skipped t + length test_results
  /\ (failed (fold_left count test_results t) = 0 <->
      failed t = 0 /\ Forall (fun entry => snd entry <> Some false) test_results).
Proof.
  revert t. induction test_results as [|entry rest IH]; intros t; simpl.
  - split; [lia|]. split; [by split | by intros [? _]].
  - destruct (IH (count t entry)) as [Hsum Hfailed].
    split.
    + rewrite Hsum. unfold count.
      destruct (snd entry) as [[]|]; simpl; lia.
    + rewrite Hfailed, Forall_cons. unfold count.
      destruct (snd entry) as [[]|]; simpl.
      * split; [intros [? ?]; by repeat split | intros [? [_ ?]]; by split].
      * split; [intros [? _]; lia | intros [_ [Hentry _]]; by destruct Hentry].
      * split; [intros [? ?]; by repeat split | intros [? [_ ?]]; by split].
Qed.

(** The summary counts every test once, as passed, failed or skipped, and
    the runner succeeds exactly when no test returned [False]: skipped
    tests do not fail the run. *)
Theorem summary_counts (test_results : list (string * option bool)) :
  passed (summarize test_results) + failed (summarize test_results)
  + skipped (summarize test_results) = length test_results
  /\ (main_result test_results = true <->
      Forall (fun entry => snd entry <> Some false) test_results)
  /\ (exit_status test_results = 0 <-> main_result test_results = true).
Proof.
  unfold exit_status, main_result, summarize.
  destruct (fold_count test_results {| passed := 0; failed := 0; skipped := 0 |})
    as [Hsum Hfailed].
  split; [simpl in Hsum; lia|]. split.
  - rewrite Nat.eqb_eq, Hfailed. simpl. split; [by intros [_ ?] | by split].
  - by destruct (_ =? 0).
Qed.

End tally_facts.

Example summary_with_skipped_voice_test :
  RunTests.summarize
    [ ("Dependencies", Some true); ("Environment", Some true);
      ("App Startup", Some true); ("Unit Tests", Some true);
      ("Voice Module", None) ]
  = {| RunTests.passed := 4; RunTests.failed := 0; RunTests.skipped := 1 |}
  /\ RunTests.exit_status
       [ ("Dependencies", Some true); ("Environment", Some true);
         ("App Startup", Some true); ("Unit Tests", Some true);
         ("Voice Module", None) ] = 0.
Proof. split; reflexivity. Qed.
